(** * Verilator simulation harness of MyCPU (0-minimal/verilog/verilator/sim.cpp)

    A shallow embedding of the harness: the word-addressed [Memory] with
    byte-strobe writes and raw image loading, the optional [VCDTracer], and
    the [Simulator] that drives the Verilated core, services its memory bus,
    watches for the halt sentinel and dumps the signature.

    Unsigned machine integers ([uint32_t], [size_t], [vluint64_t]) are
    values of [N]; where the C++ arithmetic can wrap, the wrap is written
    with [wrap32] / [wrap64].  A [std::vector<uint32_t>] is a [list N]
    indexed with stdpp's lookup and insert. *)

From Stdlib Require Import NArith Lia Ascii String Strings.Byte.
From stdpp Require Import base list.

Local Open Scope N_scope.

(** ** Machine words *)

Definition wrap32 (n : N) : N := n mod 2 ^ 32.
Definition wrap64 (n : N) : N := n mod 2 ^ 64.

(** [~x] on a [uint32_t] operand. *)
Definition not32 (x : N) : N := N.lxor x 0xFFFFFFFF.

(** Byte lane [i] (0 is the least significant) of a word. *)
Definition byte_lane (i : N) (w : N) : N := N.land (N.shiftr w (i * 8)) 0xFF.

(** [constexpr int RESET_CYCLES = 2]. *)
Definition RESET_CYCLES : N := 2.

(** The sentinel of the halt check. *)
Definition HALT_SENTINEL : N := 0xBABECAFE.

(** What the harness prints on [std::cerr] and [std::cout]. *)
Inductive message :=
| InvalidWrite (address : N)      (* cerr: Error: Invalid write address 0x<hex> *)
| HaltMet (address : N)           (* cout: Halt condition met at address 0x<hex> *)
| Progress (percent : N)          (* cerr: Simulation progress: <n>% *)
| SignatureNotOpen.               (* cerr: Error: Could not open signature file *)

(** The two [std::runtime_error]s of [load_binary]. *)
Inductive load_error :=
| CouldNotOpen
| TooLarge.

(** ** class Memory *)

Module Memory.

(** [std::vector<uint32_t> memory]. *)
Abbreviation t := (list N).

(** [std::array<bool, 4>]. *)
Record strobes := Strobes { st0 : bool; st1 : bool; st2 : bool; st3 : bool }.

Definition strobe (ws : strobes) (i : N) : bool :=
  match i with
  | 0 => st0 ws
  | 1 => st1 ws
  | 2 => st2 ws
  | 3 => st3 ws
  | _ => false
  end.

(** [Memory(size_t size) : memory(size, 0)]. *)
Definition make (size : N) : t := replicate (N.to_nat size) 0.

(** [memory.size()]. *)
Definition size (m : t) : N := N.of_nat (length m).

(** [memory[i]] for an index already checked against [size]. *)
Definition at_index (m : t) (i : N) : N := default 0 (m !! N.to_nat i).

(** [uint32_t read(size_t address)]. *)
Definition read (m : t) (address : N) : N :=
  let address := address / 4 in
  if size m <=? address then 0 else at_index m address.

(** The loop building [write_mask]:
    [for (i = 0; i < 4; ++i) if (write_strobe[i]) write_mask |= (0xFF << (i * 8))].
    [0xFF << 24] is the [int] with bit pattern 0xFF000000, and the [|=]
    converts it to that [uint32_t]. *)
Definition write_mask (ws : strobes) : N :=
  fold_left
    (fun mask i =>
       if strobe ws i then wrap32 (N.lor mask (N.shiftl 0xFF (i * 8))) else mask)
    [0; 1; 2; 3] 0.

(** [void write(size_t address, uint32_t value, const std::array<bool,4>&)]:
    the new vector and what was printed on [std::cerr]. *)
Definition write (m : t) (address value : N) (ws : strobes) : t * list message :=
  let address := address / 4 in
  if size m <=? address then (m, [InvalidWrite (wrap64 (address * 4))])
  else
    let mask := write_mask ws in
    (<[N.to_nat address := N.lor (N.land (at_index m address) (not32 mask))
                                  (N.land value mask)]> m, []).

(** The four bytes [file.read] stores into one [uint32_t] of the
    (little-endian) host. *)
Definition le_word (b0 b1 b2 b3 : byte) : N :=
  N.lor (Byte.to_N b0)
    (N.lor (N.shiftl (Byte.to_N b1) 8)
       (N.lor (N.shiftl (Byte.to_N b2) 16) (N.shiftl (Byte.to_N b3) 24))).

(** The loop of [load_binary], [count] iterations from index [i] on:
    [file.read(reinterpret_cast<char *>(&memory[i + load_address / 4]), 4)].
    [stream] is what is left of the file.  The size check of [load_binary]
    keeps every index inside the vector (lemma [load_index_in_range]);
    outside it C++ leaves the store undefined and the list is unchanged. *)
Fixpoint load_words (count : nat) (i : N) (stream : list byte)
    (load_address : N) (m : t) : t :=
  match count with
  | O => m
  | S count' =>
      match stream with
      | b0 :: b1 :: b2 :: b3 :: rest =>
          load_words count' (i + 1) rest load_address
            (<[N.to_nat (i + load_address / 4) := le_word b0 b1 b2 b3]> m)
      | _ => m
      end
  end.

(** [void load_binary(const std::string &filename, size_t load_address)].
    [file] is the content of [filename], [None] when the [ifstream] cannot
    be opened.  The result is the vector after the call and the exception
    thrown, if any. *)
Definition load_binary (m : t) (file : option (list byte)) (load_address : N)
    : t * option load_error :=
  match file with
  | None => (m, Some CouldNotOpen)
  | Some content =>
      let size_ := wrap64 (N.of_nat (length content)) in
      if wrap64 (size m * 4) <? wrap64 (load_address + size_) then (m, Some TooLarge)
      else (load_words (N.to_nat (size_ / 4)) 0 content load_address m, None)
  end.

End Memory.

(** ** The Verilated core (VTop.h, generated): signals and [eval] *)

(** The signal fields of [VTop] the harness touches, and the state of the
    design behind them. *)
Record VTop (design : Type) := MkVTop {
  clock : bool;
  reset : bool;
  io_instruction_valid : bool;
  io_memory_bundle_read_data : N;
  io_instruction : N;
  io_instruction_address : N;
  io_memory_bundle_address : N;
  io_memory_bundle_write_enable : bool;
  io_memory_bundle_write_data : N;
  io_memory_bundle_write_strobe_0 : bool;
  io_memory_bundle_write_strobe_1 : bool;
  io_memory_bundle_write_strobe_2 : bool;
  io_memory_bundle_write_strobe_3 : bool;
  internal : design
}.

Arguments MkVTop {design}.
Arguments clock {design}.
Arguments reset {design}.
Arguments io_instruction_valid {design}.
Arguments io_memory_bundle_read_data {design}.
Arguments io_instruction {design}.
Arguments io_instruction_address {design}.
Arguments io_memory_bundle_address {design}.
Arguments io_memory_bundle_write_enable {design}.
Arguments io_memory_bundle_write_data {design}.
Arguments io_memory_bundle_write_strobe_0 {design}.
Arguments io_memory_bundle_write_strobe_1 {design}.
Arguments io_memory_bundle_write_strobe_2 {design}.
Arguments io_memory_bundle_write_strobe_3 {design}.
Arguments internal {design}.

(** The core is a parameter of the harness: [top->eval()] and
    [Verilated::gotFinish()]. *)
Class Verilated (design : Type) := {
  eval : VTop design -> VTop design;
  gotFinish : VTop design -> bool
}.

Section Signals.
Context {design : Type}.

Definition set_clock (v : bool) (x : VTop design) : VTop design :=
  MkVTop v (reset x) (io_instruction_valid x) (io_memory_bundle_read_data x)
    (io_instruction x) (io_instruction_address x) (io_memory_bundle_address x)
    (io_memory_bundle_write_enable x) (io_memory_bundle_write_data x)
    (io_memory_bundle_write_strobe_0 x) (io_memory_bundle_write_strobe_1 x)
    (io_memory_bundle_write_strobe_2 x) (io_memory_bundle_write_strobe_3 x)
    (internal x).

Definition set_reset (v : bool) (x : VTop design) : VTop design :=
  MkVTop (clock x) v (io_instruction_valid x) (io_memory_bundle_read_data x)
    (io_instruction x) (io_instruction_address x) (io_memory_bundle_address x)
    (io_memory_bundle_write_enable x) (io_memory_bundle_write_data x)
    (io_memory_bundle_write_strobe_0 x) (io_memory_bundle_write_strobe_1 x)
    (io_memory_bundle_write_strobe_2 x) (io_memory_bundle_write_strobe_3 x)
    (internal x).

Definition set_io_instruction_valid (v : bool) (x : VTop design) : VTop design :=
  MkVTop (clock x) (reset x) v (io_memory_bundle_read_data x)
    (io_instruction x) (io_instruction_address x) (io_memory_bundle_address x)
    (io_memory_bundle_write_enable x) (io_memory_bundle_write_data x)
    (io_memory_bundle_write_strobe_0 x) (io_memory_bundle_write_strobe_1 x)
    (io_memory_bundle_write_strobe_2 x) (io_memory_bundle_write_strobe_3 x)
    (internal x).

Definition set_io_memory_bundle_read_data (v : N) (x : VTop design) : VTop design :=
  MkVTop (clock x) (reset x) (io_instruction_valid x) v
    (io_instruction x) (io_instruction_address x) (io_memory_bundle_address x)
    (io_memory_bundle_write_enable x) (io_memory_bundle_write_data x)
    (io_memory_bundle_write_strobe_0 x) (io_memory_bundle_write_strobe_1 x)
    (io_memory_bundle_write_strobe_2 x) (io_memory_bundle_write_strobe_3 x)
    (internal x).

Definition set_io_instruction (v : N) (x : VTop design) : VTop design :=
  MkVTop (clock x) (reset x) (io_instruction_valid x) (io_memory_bundle_read_data x)
    v (io_instruction_address x) (io_memory_bundle_address x)
    (io_memory_bundle_write_enable x) (io_memory_bundle_write_data x)
    (io_memory_bundle_write_strobe_0 x) (io_memory_bundle_write_strobe_1 x)
    (io_memory_bundle_write_strobe_2 x) (io_memory_bundle_write_strobe_3 x)
    (internal x).

End Signals.

(** ** class VCDTracer *)

Module VCDTracer.

(** [std::unique_ptr<VerilatedVcdC> tfp]: [None] is the null pointer, [Some
    f] an open dump file [f], a list of time-stamped snapshots of the
    signals the tracer was bound to by [enable]. *)
Abbreviation t design := (option (list (N * VTop design))).

(** [VCDTracer() : tfp(nullptr)]. *)
Definition make {design} : t design := None.

(** [void enable(filename, top)] when the file opens. *)
Definition enable {design} (_ : t design) : t design := Some [].

(** [void dump(vluint64_t time)]: [if (tfp) tfp->dump(time)]. *)
Definition dump {design} (time : N) (top : VTop design) (tfp : t design) : t design :=
  match tfp with
  | Some f => Some (f ++ [(time, top)])
  | None => None
  end.

End VCDTracer.

(** ** Signature lines: [snprintf(data, 9, "%08x", word)] *)

Definition hex_digit (d : N) : ascii :=
  match d with
  | 0 => "0" | 1 => "1" | 2 => "2" | 3 => "3"
  | 4 => "4" | 5 => "5" | 6 => "6" | 7 => "7"
  | 8 => "8" | 9 => "9" | 10 => "a" | 11 => "b"
  | 12 => "c" | 13 => "d" | 14 => "e" | _ => "f"
  end%char.

(** The digits [%x] prints for an [unsigned int]: most significant first,
    no leading zero, at least one digit.  Eight rounds exhaust 32 bits. *)
Fixpoint hex_digits (rounds : nat) (n : N) : list ascii :=
  match rounds with
  | O => []
  | S rounds' =>
      if n <? 16 then [hex_digit n]
      else hex_digits rounds' (n / 16) ++ [hex_digit (n mod 16)]
  end.

(** [%08x]: zero-padded on the left to a width of at least 8. *)
Definition format_08x (w : N) : list ascii :=
  let digits := hex_digits 8 (wrap32 w) in
  replicate (8 - length digits)%nat "0"%char ++ digits.

(** [snprintf(data, 9, "%08x", w)]: at most 8 characters and the NUL. *)
Definition snprintf_9_08x (w : N) : string :=
  string_of_list_ascii (take 8 (format_08x w)).

(** The 8-digit lowercase hexadecimal numeral of a word, as the signature
    format describes it: digit [k] from the left is the nibble at bits
    [4 * (7 - k)] .. [4 * (7 - k) + 3]. *)
Definition hex8 (w : N) : string :=
  string_of_list_ascii
    (map (fun k => hex_digit ((w / 16 ^ k) mod 16)) [7; 6; 5; 4; 3; 2; 1; 0]).

(** The [width] low hexadecimal digits of [n], most significant first. *)
Fixpoint fixed_hex (width : nat) (n : N) : list ascii :=
  match width with
  | O => []
  | S width' => fixed_hex width' (n / 16) ++ [hex_digit (n mod 16)]
  end.

(** ** class Simulator *)

Module Simulator.

(** The members set by [parse_args] and constant during [run], and whether
    the [ofstream] of the signature file opens. *)
Record config := Config {
  max_sim_time : N;
  halt_address : N;
  dump_signature : bool;
  signature_begin : N;
  signature_end : N;
  signature_opens : bool
}.

(** A call of [memory->read] or [memory->write] made for the core. *)
Inductive bus_op :=
| BusRead (address result : N)
| BusWrite (address value : N) (ws : Memory.strobes).

(** The members [run] changes, the locals of [run] that live across
    iterations, and what [run] has output so far: the messages printed,
    the signature file, and (as instrumentation) the bus operations in the
    order they were issued. *)
Record t (design : Type) := Make {
  top : VTop design;
  vcd_tracer : VCDTracer.t design;
  memory : Memory.t;
  main_time : N;
  data_memory_read_word : N;
  inst_memory_read_word : N;
  memory_write_strobe : Memory.strobes;
  console : list message;
  signature_file : option (list string);
  bus : list bus_op
}.

Arguments Make {design}.
Arguments top {design}.
Arguments vcd_tracer {design}.
Arguments memory {design}.
Arguments main_time {design}.
Arguments data_memory_read_word {design}.
Arguments inst_memory_read_word {design}.
Arguments memory_write_strobe {design}.
Arguments console {design}.
Arguments signature_file {design}.
Arguments bus {design}.

Section Run.
Context {design : Type} {core : Verilated design}.

(** A simulator as its constructor leaves it ([main_time = 0]), around the
    given core, tracer and memory. *)
Definition construct (top0 : VTop design) (tracer : VCDTracer.t design)
    (m : Memory.t) : t design :=
  Make top0 tracer m 0 0 0 (Memory.Strobes false false false false) [] None [].

(** The statements of [run] before the loop. *)
Definition start (s : t design) : t design :=
  let top1 := eval (set_io_instruction_valid true
                      (set_clock false (set_reset true (top s)))) in
  Make top1 (VCDTracer.dump (main_time s) top1 (vcd_tracer s)) (memory s)
    (main_time s) 0 0 (Memory.Strobes false false false false)
    (console s) (signature_file s) (bus s).

(** The loop condition
    [main_time < max_sim_time && !Verilated::gotFinish()]. *)
Definition loop_cond (cfg : config) (s : t design) : bool :=
  (main_time s <? max_sim_time cfg) && negb (gotFinish (top s)).

(** The core's inputs as the loop body sets them before [top->eval()]:
    clock toggled, reset released after [RESET_CYCLES], and the two words
    read in the previous iteration. *)
Definition drive (s : t design) : VTop design :=
  let time := wrap64 (main_time s + 1) in
  let top1 := set_clock (negb (clock (top s))) (top s) in
  let top2 := if RESET_CYCLES <? time then set_reset false top1 else top1 in
  let top3 := set_io_memory_bundle_read_data (data_memory_read_word s) top2 in
  set_io_instruction (inst_memory_read_word s) top3.

(** [main_time++] up to [top->eval()]. *)
Definition advance (s : t design) : t design :=
  Make (eval (drive s)) (vcd_tracer s) (memory s) (wrap64 (main_time s + 1))
    (data_memory_read_word s) (inst_memory_read_word s) (memory_write_strobe s)
    (console s) (signature_file s) (bus s).

(** The strobes copied from the core when it asserts write enable. *)
Definition strobes_of (x : VTop design) : Memory.strobes :=
  Memory.Strobes (io_memory_bundle_write_strobe_0 x)
    (io_memory_bundle_write_strobe_1 x)
    (io_memory_bundle_write_strobe_2 x)
    (io_memory_bundle_write_strobe_3 x).

(** The two reads and the conditional write that service the bus. *)
Definition service_bus (s : t design) : t design :=
  let x := top s in
  let data := Memory.read (memory s) (io_memory_bundle_address x) in
  let inst := Memory.read (memory s) (io_instruction_address x) in
  let reads := [BusRead (io_memory_bundle_address x) data;
                BusRead (io_instruction_address x) inst] in
  if io_memory_bundle_write_enable x then
    let ws := strobes_of x in
    let '(m, printed) :=
      Memory.write (memory s) (io_memory_bundle_address x)
        (io_memory_bundle_write_data x) ws in
    Make x (vcd_tracer s) m (main_time s) data inst ws
      (console s ++ printed) (signature_file s)
      (bus s ++ reads ++
         [BusWrite (io_memory_bundle_address x) (io_memory_bundle_write_data x) ws])
  else
    Make x (vcd_tracer s) (memory s) (main_time s) data inst
      (memory_write_strobe s) (console s) (signature_file s) (bus s ++ reads).

(** [vcd_tracer->dump(main_time)]. *)
Definition dump (s : t design) : t design :=
  Make (top s) (VCDTracer.dump (main_time s) (top s) (vcd_tracer s)) (memory s)
    (main_time s) (data_memory_read_word s) (inst_memory_read_word s)
    (memory_write_strobe s) (console s) (signature_file s) (bus s).

(** An iteration up to the halt check. *)
Definition serviced (s : t design) : t design := dump (service_bus (advance s)).

(** [halt_address && memory->read(halt_address) == 0xBABECAFE]. *)
Definition halt_met (cfg : config) (s : t design) : bool :=
  negb (halt_address cfg =? 0) &&
  (Memory.read (memory s) (halt_address cfg) =? HALT_SENTINEL).

(** Printing on [std::cout] or [std::cerr]. *)
Definition print (msg : message) (s : t design) : t design :=
  Make (top s) (vcd_tracer s) (memory s) (main_time s) (data_memory_read_word s)
    (inst_memory_read_word s) (memory_write_strobe s) (console s ++ [msg])
    (signature_file s) (bus s).

(** [main_time > 0 && max_sim_time > 10 &&
     main_time % (max_sim_time / 10) == 0]. *)
Definition progress_due (cfg : config) (s : t design) : bool :=
  (0 <? main_time s) && (10 <? max_sim_time cfg) &&
  (main_time s mod (max_sim_time cfg / 10) =? 0).

(** The progress report that ends an iteration. *)
Definition report_progress (cfg : config) (s : t design) : t design :=
  if progress_due cfg s
  then print (Progress (wrap64 (main_time s * 100) / max_sim_time cfg)) s
  else s.

(** One iteration of the loop; the flag tells whether it left by [break]. *)
Definition loop_body (cfg : config) (s : t design) : bool * t design :=
  let s1 := serviced s in
  if halt_met cfg s1 then (true, print (HaltMet (halt_address cfg)) s1)
  else (false, report_progress cfg s1).

(** The [while] loop; [None] when [fuel] iterations were not enough. *)
Fixpoint run_loop (cfg : config) (fuel : nat) (s : t design) : option (t design) :=
  if loop_cond cfg s then
    match fuel with
    | O => None
    | S fuel' =>
        let '(stop, s') := loop_body cfg s in
        if stop then Some s' else run_loop cfg fuel' s'
    end
  else Some s.

(** The loop of [generate_signature] from [addr] on:
    [for (; addr < signature_end; addr += 4)], one line per iteration. *)
Fixpoint signature_lines (fuel : nat) (m : Memory.t) (addr signature_end : N)
    : option (list string) :=
  if addr <? signature_end then
    match fuel with
    | O => None
    | S fuel' =>
        option_map (cons (snprintf_9_08x (Memory.read m addr)))
          (signature_lines fuel' m (wrap64 (addr + 4)) signature_end)
    end
  else Some [].

(** [void generate_signature()]. *)
Definition generate_signature (cfg : config) (s : t design) : option (t design) :=
  if signature_opens cfg then
    option_map
      (fun lines =>
         Make (top s) (vcd_tracer s) (memory s) (main_time s)
           (data_memory_read_word s) (inst_memory_read_word s)
           (memory_write_strobe s) (console s) (Some lines) (bus s))
      (signature_lines (S (N.to_nat (signature_end cfg - signature_begin cfg)))
         (memory s) (signature_begin cfg) (signature_end cfg))
  else Some (print SignatureNotOpen s).

(** The loop with the fuel its guard allows: every iteration adds one to
    [main_time], which stays below [max_sim_time]. *)
Definition loop (cfg : config) (s : t design) : option (t design) :=
  run_loop cfg (N.to_nat (max_sim_time cfg - main_time s)) s.

(** [void run()]. *)
Definition run (cfg : config) (s : t design) : option (t design) :=
  match loop cfg (start s) with
  | Some s' => if dump_signature cfg then generate_signature cfg s' else Some s'
  | None => None
  end.

(** The state an iteration leaves. *)
Definition step (cfg : config) (s : t design) : t design := (loop_body cfg s).2.

(** [reaches cfg s s']: the loop goes from [s] to [s'] by iterations whose
    guard holds and that do not [break]. *)
Inductive reaches (cfg : config) : t design -> t design -> Prop :=
| reaches_here s : reaches cfg s s
| reaches_next s s' s'' :
    loop_cond cfg s = true ->
    loop_body cfg s = (false, s') ->
    reaches cfg s' s'' ->
    reaches cfg s s''.

(** The same simulator with another tracer. *)
Definition set_vcd_tracer (tfp : VCDTracer.t design) (s : t design) : t design :=
  Make (top s) tfp (memory s) (main_time s) (data_memory_read_word s)
    (inst_memory_read_word s) (memory_write_strobe s) (console s)
    (signature_file s) (bus s).

(** The same simulator with another record of what was printed. *)
Definition set_console (printed : list message) (s : t design) : t design :=
  Make (top s) (vcd_tracer s) (memory s) (main_time s) (data_memory_read_word s)
    (inst_memory_read_word s) (memory_write_strobe s) printed
    (signature_file s) (bus s).

End Run.

(** The same configuration with another halt address. *)
Definition set_halt_address (a : N) (cfg : config) : config :=
  Config (max_sim_time cfg) a (dump_signature cfg) (signature_begin cfg)
    (signature_end cfg) (signature_opens cfg).

(** [t] is a 10 percent boundary of [max]: [t / max] is [k] tenths, [1 <= k <= 10]. *)
Definition ten_percent_boundary (max t : N) : Prop :=
  exists k, 1 <= k <= 10 /\ 10 * t = k * max.

End Simulator.

(** ** A scripted core: plays a fixed sequence of outputs, one per [eval] *)

Module Scripted.

Record outputs := Outputs {
  instruction_address : N;
  memory_address : N;
  write_enable : bool;
  write_data : N;
  write_strobes : Memory.strobes
}.

Abbreviation script := (list outputs).

(** An [eval] that plays the next entry of the script (and holds the
    outputs once the script is over); the inputs are left as driven. *)
Definition play (x : VTop script) : VTop script :=
  match internal x with
  | [] => x
  | o :: rest =>
      MkVTop (clock x) (reset x) (io_instruction_valid x)
        (io_memory_bundle_read_data x) (io_instruction x)
        (instruction_address o) (memory_address o) (write_enable o) (write_data o)
        (Memory.st0 (write_strobes o)) (Memory.st1 (write_strobes o))
        (Memory.st2 (write_strobes o)) (Memory.st3 (write_strobes o)) rest
  end.

(** A scripted core never calls [$finish]. *)
#[global] Instance core : Verilated script :=
  {| eval := play; gotFinish := fun _ => false |}.

Definition power_on (sc : script) : VTop script :=
  MkVTop false false false 0 0 0 0 false 0 false false false false sc.

Definition all_lanes : Memory.strobes := Memory.Strobes true true true true.

(** No bus activity: both addresses 0, no write. *)
Definition idle : outputs := Outputs 0 0 false 0 (Memory.Strobes false false false false).

(** A store of [value] at [address] on all four lanes. *)
Definition store (address value : N) : outputs :=
  Outputs 0 address true value all_lanes.

End Scripted.

(** The word that bytes [4k .. 4k+3] of an image form. *)
Definition image_word (content : list byte) (k : nat) : option N :=
  match drop (4 * k) content with
  | b0 :: b1 :: b2 :: b3 :: _ => Some (Memory.le_word b0 b1 b2 b3)
  | _ => None
  end.

(** ** Command line, constructor and [main] *)

Module Program.

(** What [main] catches as [std::exception]. *)
Inductive exception :=
| BadNumber                       (* std::invalid_argument, std::out_of_range *)
| TraceNotOpen (filename : string) (* Failed to open VCD dump file *)
| LoadFailed (e : load_error)      (* the errors of load_binary *)
| BadAlloc.                        (* std::length_error, std::bad_alloc *)

Inductive result (A : Type) :=
| Ok (a : A)
| Throw (e : exception).

Arguments Ok {A}.
Arguments Throw {A}.

(** The library and the machine around the program: the numeric parsers
    ([None] when they throw), the files that can be read, the files that
    can be opened for writing, and the vectors that can be allocated. *)
Class Host := {
  stoul : N -> string -> option N;      (* std::stoul(str, nullptr, base) *)
  stoull : string -> option N;           (* std::stoull(str) *)
  ifstream : string -> option (list byte);
  trace_opens : string -> bool;          (* tfp->isOpen() after tfp->open *)
  ofstream_opens : string -> bool;
  allocates : N -> bool                  (* std::vector<uint32_t>(size, 0) *)
}.

(** The members of [Simulator] that [parse_args] sets. *)
Record settings (design : Type) := Settings {
  halt_address : N;
  memory_words : N;
  max_sim_time : N;
  vcd_tracer : VCDTracer.t design;
  dump_signature : bool;
  signature_begin : N;
  signature_end : N;
  signature_filename : string;
  instruction_filename : string
}.

Arguments Settings {design}.
Arguments halt_address {design}.
Arguments memory_words {design}.
Arguments max_sim_time {design}.
Arguments vcd_tracer {design}.
Arguments dump_signature {design}.
Arguments signature_begin {design}.
Arguments signature_end {design}.
Arguments signature_filename {design}.
Arguments instruction_filename {design}.

Section Program.
Context {host : Host} {design : Type} {core : Verilated design}.

(** [uint32_t parse_number(const std::string &str)]; the [unsigned long]
    of [std::stoul] is cut to 32 bits by the return type. *)
Definition parse_number (str : string) : option N :=
  if (2 <? String.length str)%nat &&
     (String.eqb (substring 0 2 str) "0x" || String.eqb (substring 0 2 str) "0X")
  then option_map wrap32 (stoul 16 (substring 2 (String.length str - 2) str))
  else option_map wrap32 (stoul 10 str).

(** The member initializers; [signature_begin] and [signature_end] have
    none and start with whatever the storage holds. *)
Definition initial (tracer : VCDTracer.t design) (begin0 end0 : N) : settings design :=
  Settings 0 (1024 * 1024) 10000 tracer false begin0 end0 "" "".

Definition set_halt_address (v : N) (st : settings design) : settings design :=
  Settings v (memory_words st) (max_sim_time st) (vcd_tracer st) (dump_signature st)
    (signature_begin st) (signature_end st) (signature_filename st)
    (instruction_filename st).

Definition set_memory_words (v : N) (st : settings design) : settings design :=
  Settings (halt_address st) v (max_sim_time st) (vcd_tracer st) (dump_signature st)
    (signature_begin st) (signature_end st) (signature_filename st)
    (instruction_filename st).

Definition set_max_sim_time (v : N) (st : settings design) : settings design :=
  Settings (halt_address st) (memory_words st) v (vcd_tracer st) (dump_signature st)
    (signature_begin st) (signature_end st) (signature_filename st)
    (instruction_filename st).

Definition set_vcd_tracer (v : VCDTracer.t design) (st : settings design)
    : settings design :=
  Settings (halt_address st) (memory_words st) (max_sim_time st) v (dump_signature st)
    (signature_begin st) (signature_end st) (signature_filename st)
    (instruction_filename st).

Definition set_signature (b e : N) (f : string) (st : settings design)
    : settings design :=
  Settings (halt_address st) (memory_words st) (max_sim_time st) (vcd_tracer st) true
    b e f (instruction_filename st).

Definition set_instruction_filename (v : string) (st : settings design)
    : settings design :=
  Settings (halt_address st) (memory_words st) (max_sim_time st) (vcd_tracer st)
    (dump_signature st) (signature_begin st) (signature_end st)
    (signature_filename st) v.

(** A parsed number, or the exception of the parser. *)
Definition number (parsed : option N) (k : N -> result (settings design))
    : result (settings design) :=
  match parsed with
  | Some n => k n
  | None => Throw BadNumber
  end.

(** [void parse_args(const std::vector<std::string> &args)]: the loop from
    [it] on.  A flag needs the value after it ([-signature] the three
    values after it), otherwise the argument is passed over. *)
Fixpoint parse_args (args : list string) (st : settings design)
    : result (settings design) :=
  match args with
  | [] => Ok st
  | a :: rest =>
      match rest with
      | [] => parse_args rest st
      | v :: rest1 =>
          if String.eqb a "-halt" then
            number (parse_number v) (fun n => parse_args rest1 (set_halt_address n st))
          else if String.eqb a "-memory" then
            number (stoull v) (fun n => parse_args rest1 (set_memory_words n st))
          else if String.eqb a "-time" then
            number (stoull v) (fun n => parse_args rest1 (set_max_sim_time n st))
          else if String.eqb a "-vcd" then
            if trace_opens v
            then parse_args rest1 (set_vcd_tracer (VCDTracer.enable (vcd_tracer st)) st)
            else Throw (TraceNotOpen v)
          else if String.eqb a "-signature" then
            match rest1 with
            | e :: f :: rest3 =>
                number (parse_number v) (fun b =>
                number (parse_number e) (fun e' =>
                parse_args rest3 (set_signature b e' f st)))
            | _ => parse_args rest st
            end
          else if String.eqb a "-instruction" then
            parse_args rest1 (set_instruction_filename v st)
          else parse_args rest st
      end
  end.

(** The configuration [run] works with. *)
Definition config_of (st : settings design) : Simulator.config :=
  Simulator.Config (max_sim_time st) (halt_address st) (dump_signature st)
    (signature_begin st) (signature_end st) (ofstream_opens (signature_filename st)).

(** [Simulator(const std::vector<std::string> &args)], around the core
    [new VTop()] gives; the two uninitialized members come along. *)
Definition Simulator (top0 : VTop design) (begin0 end0 : N) (args : list string)
    : result (Simulator.config * Simulator.t design) :=
  match parse_args args (initial VCDTracer.make begin0 end0) with
  | Throw e => Throw e
  | Ok st =>
      if allocates (memory_words st) then
        let m := Memory.make (memory_words st) in
        if String.eqb (instruction_filename st) "" then
          Ok (config_of st, Simulator.construct top0 (vcd_tracer st) m)
        else
          match Memory.load_binary m (ifstream (instruction_filename st)) 0x1000 with
          | (m', None) => Ok (config_of st, Simulator.construct top0 (vcd_tracer st) m')
          | (_, Some e) => Throw (LoadFailed e)
          end
      else Throw BadAlloc
  end.

(** [int main(int argc, char **argv)]: the exit code, with the exception
    caught or the simulator [run] leaves; [None] if [run] does not return. *)
Definition main (top0 : VTop design) (begin0 end0 : N) (args : list string)
    : option (N * result (Simulator.t design)) :=
  match Simulator top0 begin0 end0 args with
  | Throw e => Some (1, Throw e)
  | Ok (cfg, s) =>
      match Simulator.run cfg s with
      | Some r => Some (0, Ok r)
      | None => None
      end
  end.

End Program.

(** The six flags of [parse_args]. *)
Definition is_flag (a : string) : bool :=
  String.eqb a "-halt" || String.eqb a "-memory" || String.eqb a "-time" ||
  String.eqb a "-vcd" || String.eqb a "-signature" || String.eqb a "-instruction".

End Program.

(** What [parse_args] keeps true of the settings: the halt address and,
    once a signature is asked for, its bounds are 32-bit values; the time
    budget is what [stoull] can return ([Q]). *)
Definition parsed_well {design} (Q : N -> Prop) (st : Program.settings design) : Prop :=
  Program.halt_address st < 2 ^ 32 /\
  (Program.dump_signature st = true ->
     Program.signature_begin st < 2 ^ 32 /\ Program.signature_end st < 2 ^ 32) /\
  Q (Program.max_sim_time st).

(** A host for the examples: decimal and hexadecimal numerals without sign
    or blanks, one image file, every output file opens. *)
Module ExampleHost.

Definition digit_value (base : N) (c : ascii) : option N :=
  let n := N_of_ascii c in
  let d :=
    if (48 <=? n) && (n <=? 57) then Some (n - 48)
    else if (97 <=? n) && (n <=? 102) then Some (n - 87)
    else if (65 <=? n) && (n <=? 70) then Some (n - 55)
    else None in
  match d with
  | Some v => if v <? base then Some v else None
  | None => None
  end.

Fixpoint numeral (base : N) (acc : N) (str : string) : option N :=
  match str with
  | EmptyString => Some acc
  | String c rest =>
      match digit_value base c with
      | Some d => numeral base (base * acc + d) rest
      | None => None
      end
  end.

Definition parse (base : N) (str : string) : option N :=
  match str with
  | EmptyString => None
  | _ =>
      match numeral base 0 str with
      | Some n => if n <? 2 ^ 64 then Some n else None
      | None => None
      end
  end.

#[global] Instance host : Program.Host := {|
  Program.stoul := parse;
  Program.stoull := parse 10;
  Program.ifstream :=
    fun name => if String.eqb name "prog.bin"
                then Some [x13; x05; xa0; x02; x6f; x00; x00; x00; xff] else None;
  Program.trace_opens := fun _ => true;
  Program.ofstream_opens := fun _ => true;
  Program.allocates := fun n => n <? 2 ^ 24
|}.

End ExampleHost.

(** ** Reading signature lines back *)

Definition hex_value (c : ascii) : N :=
  let n := N_of_ascii c in
  if n <? 58 then n - 48 else n - 87.

(** The number a list of hexadecimal digits denotes. *)
Definition unhex (digits : list ascii) : N :=
  fold_left (fun acc c => 16 * acc + hex_value c) digits 0.

(** * Properties *)

(** ** Memory: byte lanes of the write mask *)

Lemma write_mask_cases ws :
  Memory.write_mask ws =
    (if Memory.st0 ws then 0xFF else 0) +
    (if Memory.st1 ws then 0xFF00 else 0) +
    (if Memory.st2 ws then 0xFF0000 else 0) +
    (if Memory.st3 ws then 0xFF000000 else 0).
Proof. destruct ws as [[] [] [] []]; reflexivity. Qed.

Lemma write_mask_lt ws : Memory.write_mask ws < 2 ^ 32.
Proof. destruct ws as [[] [] [] []]; vm_compute; reflexivity. Qed.

Lemma small_index_cases n : n < 8 ->
  n = 0 \/ n = 1 \/ n = 2 \/ n = 3 \/ n = 4 \/ n = 5 \/ n = 6 \/ n = 7.
Proof. lia. Qed.

Lemma write_mask_testbit ws i n :
  i < 4 -> n < 8 ->
  N.testbit (Memory.write_mask ws) (n + i * 8) = Memory.strobe ws i.
Proof.
  intros Hi Hn. rewrite write_mask_cases.
  assert (Hc : i = 0 \/ i = 1 \/ i = 2 \/ i = 3) by lia.
  apply small_index_cases in Hn.
  destruct ws as [[] [] [] []];
    destruct Hc as [-> | [-> | [-> | ->]]];
    destruct Hn as [-> | [-> | [-> | [-> | [-> | [-> | [-> | ->]]]]]]];
    reflexivity.
Qed.

Lemma ones32_testbit n : n < 32 -> N.testbit 0xFFFFFFFF n = true.
Proof.
  intros Hn. change 0xFFFFFFFF with (N.ones 32).
  apply N.ones_spec_low. lia.
Qed.

(** Byte lane [i] of the merged word: lane [i] of [value] when the mask
    covers it, else lane [i] of the old word. *)
Lemma byte_lane_merge ws old value i :
  i < 4 ->
  byte_lane i (N.lor (N.land old (not32 (Memory.write_mask ws)))
                     (N.land value (Memory.write_mask ws)))
  = if Memory.strobe ws i then byte_lane i value else byte_lane i old.
Proof.
  intros Hi. unfold byte_lane, not32.
  apply N.bits_inj. intros n.
  rewrite !N.land_spec, !N.shiftr_spec', N.lor_spec, !N.land_spec, N.lxor_spec.
  destruct (N.ltb_spec n 8) as [Hn | Hn].
  - rewrite (write_mask_testbit ws i n Hi Hn), ones32_testbit by lia.
    destruct (Memory.strobe ws i); rewrite ?N.land_spec, ?N.shiftr_spec';
      destruct (N.testbit old (n + i * 8)), (N.testbit value (n + i * 8));
      destruct (N.testbit 255 n); reflexivity.
  - assert (H255 : N.testbit 0xFF n = false).
    { apply N.bits_above_log2. change (N.log2 255) with 7. lia. }
    destruct (Memory.strobe ws i); rewrite ?N.land_spec, H255, ?andb_false_r;
      reflexivity.
Qed.

Lemma merge_all_strobes old value :
  value < 2 ^ 32 ->
  N.lor (N.land old (not32 (Memory.write_mask (Memory.Strobes true true true true))))
        (N.land value (Memory.write_mask (Memory.Strobes true true true true)))
  = value.
Proof.
  intros Hv.
  change (Memory.write_mask (Memory.Strobes true true true true)) with (N.ones 32).
  change (not32 (N.ones 32)) with 0.
  rewrite N.land_0_r, N.lor_0_l, N.land_ones.
  apply N.mod_small, Hv.
Qed.

(** ** Memory: reads and writes *)

Lemma size_write m address value ws :
  Memory.size (Memory.write m address value ws).1 = Memory.size m.
Proof.
  unfold Memory.write. destruct (Memory.size m <=? address / 4); simpl.
  - reflexivity.
  - unfold Memory.size. now rewrite length_insert.
Qed.

Lemma read_out_of_range m address :
  Memory.size m <= address / 4 -> Memory.read m address = 0.
Proof.
  intros H. unfold Memory.read.
  destruct (N.leb_spec (Memory.size m) (address / 4)); [reflexivity | lia].
Qed.

Lemma read_in_range m address :
  address / 4 < Memory.size m ->
  Memory.read m address = Memory.at_index m (address / 4).
Proof.
  intros H. unfold Memory.read.
  destruct (N.leb_spec (Memory.size m) (address / 4)); [lia | reflexivity].
Qed.

Lemma write_in_range m address value ws :
  address / 4 < Memory.size m ->
  Memory.write m address value ws =
    (<[N.to_nat (address / 4) :=
         N.lor (N.land (Memory.read m address) (not32 (Memory.write_mask ws)))
               (N.land value (Memory.write_mask ws))]> m, []).
Proof.
  intros H. rewrite read_in_range by exact H. unfold Memory.write.
  destruct (N.leb_spec (Memory.size m) (address / 4)); [lia | reflexivity].
Qed.

Lemma read_after_write m address value ws :
  address / 4 < Memory.size m ->
  Memory.read (Memory.write m address value ws).1 address =
    N.lor (N.land (Memory.read m address) (not32 (Memory.write_mask ws)))
          (N.land value (Memory.write_mask ws)).
Proof.
  intros H.
  rewrite read_in_range by (rewrite size_write; exact H).
  rewrite write_in_range by exact H. simpl.
  unfold Memory.at_index, Memory.size in *.
  rewrite list_lookup_insert_eq by lia. reflexivity.
Qed.

(** C1: a write followed by a read at the same in-range address returns
    the written value when all four strobes are set; for any strobes, each
    of the four byte lanes of the word read back is the lane of the written
    value where the strobe is set and the lane of the word stored before
    the write where it is not. *)
Theorem write_then_read (m : Memory.t) (address value : N) (ws : Memory.strobes) :
  address / 4 < Memory.size m ->
  value < 2 ^ 32 ->
  let m' := (Memory.write m address value ws).1 in
  (ws = Memory.Strobes true true true true -> Memory.read m' address = value) /\
  (forall i, i < 4 ->
     byte_lane i (Memory.read m' address) =
       if Memory.strobe ws i then byte_lane i value
       else byte_lane i (Memory.read m address)).
Proof.
  intros Hin Hv m'. subst m'. rewrite read_after_write by exact Hin. split.
  - intros ->. apply merge_all_strobes, Hv.
  - intros i Hi. apply byte_lane_merge, Hi.
Qed.

Lemma write_then_read_witness :
  let m := [0x11223344; 0xAABBCCDD] in
  let ws := Memory.Strobes true false true false in
  let m' := (Memory.write m 5 0xDEADBEEF ws).1 in
  (ws = Memory.Strobes true true true true -> Memory.read m' 5 = 0xDEADBEEF) /\
  (forall i, i < 4 ->
     byte_lane i (Memory.read m' 5) =
       if Memory.strobe ws i then byte_lane i 0xDEADBEEF
       else byte_lane i (Memory.read m 5)).
Proof.
  apply (write_then_read [0x11223344; 0xAABBCCDD] 5 0xDEADBEEF
           (Memory.Strobes true false true false)).
  - vm_compute. reflexivity.
  - vm_compute. reflexivity.
Defined.

(** C5: at an address whose word index is outside the vector, [read]
    returns 0, and [write] leaves the vector as it was and prints one
    diagnostic. *)
Theorem out_of_range_access (m : Memory.t) (address value : N) (ws : Memory.strobes) :
  Memory.size m <= address / 4 ->
  Memory.read m address = 0 /\
  exists a, Memory.write m address value ws = (m, [InvalidWrite a]).
Proof.
  intros H. split.
  - apply read_out_of_range, H.
  - unfold Memory.write.
    destruct (N.leb_spec (Memory.size m) (address / 4)); [eauto | lia].
Qed.

Lemma out_of_range_access_witness :
  Memory.read [1; 2] 8 = 0 /\
  exists a, Memory.write [1; 2] 8 0xFFFFFFFF Scripted.all_lanes = ([1; 2], [InvalidWrite a]).
Proof.
  apply (out_of_range_access [1; 2] 8 0xFFFFFFFF Scripted.all_lanes).
  vm_compute. discriminate.
Defined.

(** ** Memory: loading an image *)

Lemma image_word_cons b0 b1 b2 b3 rest k :
  image_word (b0 :: b1 :: b2 :: b3 :: rest) (S k) = image_word rest k.
Proof.
  unfold image_word.
  replace (4 * S k)%nat with (S (S (S (S (4 * k))))) by lia.
  reflexivity.
Qed.

Lemma image_word_is_Some content k :
  (4 * k + 4 <= length content)%nat -> is_Some (image_word content k).
Proof.
  intros H. unfold image_word.
  assert (Hd : (4 <= length (drop (4 * k) content))%nat)
    by (rewrite length_drop; lia).
  destruct (drop (4 * k) content) as [| b0 [| b1 [| b2 [| b3 rest]]]];
    simpl in Hd; try lia.
  eauto.
Qed.

Lemma length_load_words count : forall i stream load_address m,
  length (Memory.load_words count i stream load_address m) = length m.
Proof.
  induction count as [| count IH]; intros i stream load_address m; simpl.
  - reflexivity.
  - destruct stream as [| b0 [| b1 [| b2 [| b3 rest]]]]; try reflexivity.
    rewrite IH. apply length_insert.
Qed.

(** What the loading loop leaves at index [j]: the image words on the
    [count] indices from [i + load_address / 4] on, the old content
    elsewhere. *)
Lemma load_words_lookup count : forall i stream load_address m j,
  (4 * count <= length stream)%nat ->
  (N.to_nat (i + load_address / 4) + count <= length m)%nat ->
  Memory.load_words count i stream load_address m !! j =
    if decide (N.to_nat (i + load_address / 4) <= j
               < N.to_nat (i + load_address / 4) + count)%nat
    then image_word stream (j - N.to_nat (i + load_address / 4))
    else m !! j.
Proof.
  induction count as [| count IH]; intros i stream load_address m j Hlen Hfit.
  - simpl. case_decide; [lia | reflexivity].
  - destruct stream as [| b0 [| b1 [| b2 [| b3 rest]]]]; simpl in Hlen; try lia.
    simpl Memory.load_words.
    rewrite IH by (rewrite ?length_insert; simpl; lia).
    replace (N.to_nat (i + 1 + load_address / 4))
      with (S (N.to_nat (i + load_address / 4))) by lia.
    set (base := N.to_nat (i + load_address / 4)) in *.
    repeat case_decide; try lia.
    + replace (j - base)%nat with (S (j - S base)) by lia.
      now rewrite image_word_cons.
    + assert (j = base) as -> by lia.
      rewrite Nat.sub_diag, list_lookup_insert_eq by lia. reflexivity.
    + apply list_lookup_insert_ne. lia.
Qed.

(** The size check of [load_binary] keeps the loop inside the vector. *)
Lemma load_index_in_range m load_address size_ :
  load_address + size_ <= Memory.size m * 4 ->
  (N.to_nat (0 + load_address / 4) + N.to_nat (size_ / 4) <= length m)%nat.
Proof.
  unfold Memory.size. intros H.
  assert (load_address / 4 + size_ / 4 <= N.of_nat (length m)).
  { pose proof (N.Div0.mul_div_le load_address 4).
    pose proof (N.Div0.mul_div_le size_ 4). lia. }
  lia.
Qed.

Lemma wrap64_small n : n < 2 ^ 64 -> wrap64 n = n.
Proof. apply N.mod_small. Qed.


(** Six bytes at byte offset 4 of a fresh four-word memory: one word is
    stored, the two trailing bytes are dropped. *)
Example load_binary_six_bytes :
  Memory.load_binary (Memory.make 4) (Some [x01; x02; x03; x04; x05; x06]) 4
  = ([0; 0x04030201; 0; 0], None).
Proof. reflexivity. Qed.

Example load_binary_too_large :
  Memory.load_binary (Memory.make 2) (Some [x01; x02; x03; x04; x05; x06]) 4
  = ([0; 0], Some TooLarge).
Proof. reflexivity. Qed.



Example load_binary_at_top_address :
  Memory.load_binary (Memory.make 4) (Some [x01]) (2 ^ 64 - 1)
  = (Memory.make 4, None).
Proof. vm_compute. reflexivity. Qed.

(** ** Signature lines *)

Lemma length_hex_digits rounds : forall n,
  (length (hex_digits rounds n) <= rounds)%nat.
Proof.
  induction rounds as [| rounds IH]; intros n; simpl.
  - lia.
  - destruct (n <? 16); simpl.
    + lia.
    + rewrite length_app. simpl. specialize (IH (n / 16)). lia.
Qed.

Lemma length_fixed_hex width : forall n, length (fixed_hex width n) = width.
Proof.
  induction width as [| width IH]; intros n; simpl.
  - reflexivity.
  - rewrite length_app, IH. simpl. lia.
Qed.

Lemma fixed_hex_zero width : fixed_hex width 0 = replicate width "0"%char.
Proof.
  induction width as [| width IH].
  - reflexivity.
  - cbn [fixed_hex]. change (0 / 16) with 0. change (0 mod 16) with 0.
    rewrite IH. change [hex_digit 0] with (replicate 1 "0"%char).
    rewrite <- replicate_add. f_equal. lia.
Qed.

(** Zero-padding the [%x] digits of [n] to a width that holds [n] gives
    the fixed-width digits. *)
Lemma pad_hex_digits width : forall rounds n,
  (1 <= width <= rounds)%nat ->
  n < 16 ^ N.of_nat width ->
  (length (hex_digits rounds n) <= width)%nat /\
  replicate (width - length (hex_digits rounds n)) "0"%char ++ hex_digits rounds n
  = fixed_hex width n.
Proof.
  induction width as [| width IH]; intros rounds n Hw Hn; [lia |].
  destruct rounds as [| rounds]; [lia |].
  cbn [hex_digits fixed_hex].
  destruct (N.ltb_spec n 16) as [Hsmall | Hbig].
  - rewrite N.div_small, N.mod_small by exact Hsmall.
    rewrite fixed_hex_zero. simpl length. split; [lia |].
    f_equal. f_equal. lia.
  - assert (Hw' : (1 <= width)%nat).
    { destruct width; [| lia]. change (16 ^ N.of_nat 1) with 16 in Hn. lia. }
    assert (Hdiv : n / 16 < 16 ^ N.of_nat width).
    { apply N.Div0.div_lt_upper_bound.
      replace (N.of_nat (S width)) with (N.succ (N.of_nat width)) in Hn by lia.
      rewrite N.pow_succ_r' in Hn. exact Hn. }
    destruct (IH rounds (n / 16)) as [Hlen Heq]; [lia | exact Hdiv |].
    rewrite length_app. simpl length. split; [lia |].
    rewrite <- Heq, app_assoc. f_equal. f_equal. f_equal. lia.
Qed.

Lemma hex_nibble_wrap32 w k :
  k < 8 -> (wrap32 w / 16 ^ k) mod 16 = (w / 16 ^ k) mod 16.
Proof.
  intros Hk. unfold wrap32.
  change 16 with (2 ^ 4).
  rewrite <- !N.pow_mul_r, <- !N.shiftr_div_pow2, <- !N.land_ones.
  apply N.bits_inj. intros i. rewrite !N.land_spec, !N.shiftr_spec'.
  destruct (N.ltb_spec i 4) as [Hi | Hi].
  - rewrite N.land_spec, (N.ones_spec_low 32) by lia.
    now rewrite andb_true_r.
  - rewrite N.ones_spec_high by exact Hi. now rewrite !andb_false_r.
Qed.

Lemma fixed_hex_8 n :
  fixed_hex 8 n =
    map (fun k => hex_digit ((n / 16 ^ k) mod 16)) [7; 6; 5; 4; 3; 2; 1; 0].
Proof.
  cbn [fixed_hex map app].
  rewrite !N.Div0.div_div.
  change (16 ^ 0) with 1. rewrite N.div_1_r.
  reflexivity.
Qed.

(** The line [snprintf] produces is the 8-digit numeral of the word. *)
Lemma snprintf_9_08x_hex8 w : snprintf_9_08x w = hex8 w.
Proof.
  unfold snprintf_9_08x, hex8, format_08x. f_equal.
  assert (Hlt : wrap32 w < 16 ^ N.of_nat 8).
  { change (16 ^ N.of_nat 8) with (2 ^ 32). apply N.mod_upper_bound. discriminate. }
  destruct (pad_hex_digits 8 8 (wrap32 w)) as [_ ->]; [lia | exact Hlt |].
  rewrite firstn_all2 by (rewrite length_fixed_hex; lia).
  rewrite fixed_hex_8.
  cbn [map]. rewrite !hex_nibble_wrap32 by reflexivity. reflexivity.
Qed.

Lemma length_hex8 w : String.length (hex8 w) = 8%nat.
Proof. reflexivity. Qed.

(** The loop of [generate_signature] over [count] whole words. *)
Lemma signature_lines_words m count : forall fuel addr signature_end,
  addr + 4 * N.of_nat count = signature_end ->
  signature_end < 2 ^ 64 ->
  (count <= fuel)%nat ->
  Simulator.signature_lines fuel m addr signature_end =
    Some (map (fun k => snprintf_9_08x (Memory.read m (addr + 4 * N.of_nat k)))
              (seq 0 count)).
Proof.
  induction count as [| count IH]; intros fuel addr signature_end Hend Hmax Hfuel.
  - destruct fuel; simpl;
      (destruct (N.ltb_spec addr signature_end); [lia | reflexivity]).
  - destruct fuel as [| fuel]; [lia |]. simpl Simulator.signature_lines.
    destruct (N.ltb_spec addr signature_end); [| lia].
    rewrite wrap64_small by lia.
    rewrite (IH fuel (addr + 4) signature_end) by lia.
    cbn [option_map seq map]. f_equal. f_equal.
    + f_equal. f_equal. lia.
    + rewrite <- seq_shift, map_map. apply map_ext. intros k. do 2 f_equal. lia.
Qed.

Lemma aligned_range_words b e :
  b mod 4 = 0 -> e mod 4 = 0 -> b <= e ->
  b + 4 * ((e - b) / 4) = e.
Proof.
  intros Hb He Hle.
  apply N.Div0.div_exact in Hb, He.
  set (b' := b / 4) in *. set (e' := e / 4) in *.
  rewrite Hb, He. replace (4 * e' - 4 * b') with ((e' - b') * 4) by lia.
  rewrite N.div_mul by discriminate. lia.
Qed.

(** C7: when the signature file opens and the range is word-aligned,
    [generate_signature] writes exactly [(end - begin) / 4] lines; line [k]
    (from 0) is the 8-digit lowercase hexadecimal numeral, without prefix,
    of the word [read] at [begin + 4 * k], so the addresses ascend by 4
    from [begin] and stay below [end]. *)
Theorem signature_contract {design} (cfg : Simulator.config) (s : Simulator.t design) :
  Simulator.signature_opens cfg = true ->
  Simulator.signature_begin cfg mod 4 = 0 ->
  Simulator.signature_end cfg mod 4 = 0 ->
  Simulator.signature_begin cfg <= Simulator.signature_end cfg ->
  Simulator.signature_end cfg < 2 ^ 64 ->
  exists lines,
    option_map Simulator.signature_file (Simulator.generate_signature cfg s)
      = Some (Some lines) /\
    N.of_nat (length lines)
      = (Simulator.signature_end cfg - Simulator.signature_begin cfg) / 4 /\
    forall k, (k < length lines)%nat ->
      Simulator.signature_begin cfg + 4 * N.of_nat k < Simulator.signature_end cfg /\
      exists line,
        lines !! k = Some line /\
        line = hex8 (Memory.read (Simulator.memory s)
                       (Simulator.signature_begin cfg + 4 * N.of_nat k)) /\
        String.length line = 8%nat.
Proof.
  intros Hopen Hb He Hle Hmax.
  pose proof (aligned_range_words _ _ Hb He Hle) as Hrange.
  set (b := Simulator.signature_begin cfg) in *.
  set (e := Simulator.signature_end cfg) in *.
  set (count := N.to_nat ((e - b) / 4)).
  assert (Hcount : N.of_nat count = (e - b) / 4) by (subst count; lia).
  eexists. unfold Simulator.generate_signature. rewrite Hopen. fold b e.
  rewrite (signature_lines_words _ count).
  - cbn [option_map Simulator.signature_file]. split; [reflexivity |].
    rewrite length_map, length_seq. split; [exact Hcount |].
    intros k Hk. split; [lia |].
    eexists. split; [| split].
    + rewrite list_lookup_fmap, lookup_seq_lt by exact Hk. reflexivity.
    + cbn [Nat.add]. apply snprintf_9_08x_hex8.
    + cbn [Nat.add]. rewrite snprintf_9_08x_hex8. apply length_hex8.
  - rewrite Hcount. exact Hrange.
  - exact Hmax.
  - lia.
Qed.

(** With [begin] above [end] there is no line at all. *)
Lemma signature_empty_range {design} (cfg : Simulator.config) (s : Simulator.t design) :
  Simulator.signature_opens cfg = true ->
  Simulator.signature_end cfg <= Simulator.signature_begin cfg ->
  option_map Simulator.signature_file (Simulator.generate_signature cfg s)
    = Some (Some []).
Proof.
  intros Hopen Hle. unfold Simulator.generate_signature. rewrite Hopen.
  cbn [Simulator.signature_lines].
  destruct (N.ltb_spec (Simulator.signature_begin cfg) (Simulator.signature_end cfg));
    [lia | reflexivity].
Qed.

Example signature_two_words :
  option_map Simulator.signature_file
    (Simulator.generate_signature (Simulator.Config 10 0 true 4 12 true)
       (Simulator.construct (Scripted.power_on []) None [1; 0xBABECAFE; 0x2A; 7]))
  = Some (Some ["babecafe"; "0000002a"]%string).
Proof. reflexivity. Qed.

Lemma signature_contract_witness :
  exists lines,
    option_map Simulator.signature_file
      (Simulator.generate_signature (Simulator.Config 10 0 true 4 12 true)
         (Simulator.construct (Scripted.power_on []) None [1; 0xBABECAFE; 0x2A; 7]))
      = Some (Some lines) /\
    N.of_nat (length lines) = (12 - 4) / 4.
Proof.
  destruct (signature_contract (Simulator.Config 10 0 true 4 12 true)
              (Simulator.construct (Scripted.power_on []) None
                 [1; 0xBABECAFE; 0x2A; 7]))
    as (lines & Hfile & Hlen & _).
  - reflexivity.
  - reflexivity.
  - reflexivity.
  - vm_compute. discriminate.
  - vm_compute. reflexivity.
  - exists lines. split; assumption.
Defined.

(** ** The simulation loop *)

Import Simulator.

(** Unfolds one iteration down to the fields and splits on its branches. *)
Ltac open_body :=
  unfold step, loop_body, report_progress, serviced, dump, print, service_bus,
    advance, set_vcd_tracer in *;
  cbn [top vcd_tracer memory main_time data_memory_read_word
       inst_memory_read_word memory_write_strobe console signature_file bus] in *.

(** The same, with the guards and [drive] unfolded too. *)
Ltac open_all :=
  unfold set_console, halt_met, progress_due in *; open_body;
  unfold halt_met, progress_due, drive in *;
  cbn [top vcd_tracer memory main_time data_memory_read_word
       inst_memory_read_word memory_write_strobe console signature_file bus] in *.

(** Splits on the innermost undecided test first, so that a test is
    decided once for all its occurrences. *)
Ltac split_body :=
  repeat (match goal with
          | |- context [if ?b then _ else _] =>
              lazymatch b with
              | context [if _ then _ else _] => fail
              | context [let '(_, _) := _ in _] => fail
              | _ => destruct b eqn:?
              end
          | |- context [let '(_, _) := ?p in _] =>
              lazymatch p with
              | context [if _ then _ else _] => fail
              | _ => destruct p eqn:?
              end
          end;
          cbn [top vcd_tracer memory main_time data_memory_read_word
               inst_memory_read_word memory_write_strobe console
               signature_file bus fst snd] in *);
  try congruence.

Section Loop.
Context {design : Type} {core : Verilated design}.
Implicit Types (cfg : config) (s : t design).

(** *** What one iteration changes *)

Lemma top_serviced s : top (serviced s) = eval (drive s).
Proof. open_body. split_body; reflexivity. Qed.

Lemma main_time_serviced s : main_time (serviced s) = wrap64 (main_time s + 1).
Proof. open_body. split_body; reflexivity. Qed.

Lemma memory_serviced s :
  memory (serviced s) =
    if io_memory_bundle_write_enable (eval (drive s))
    then (Memory.write (memory s) (io_memory_bundle_address (eval (drive s)))
            (io_memory_bundle_write_data (eval (drive s)))
            (strobes_of (eval (drive s)))).1
    else memory s.
Proof. open_body. split_body; reflexivity. Qed.

Lemma size_memory_serviced s :
  Memory.size (memory (serviced s)) = Memory.size (memory s).
Proof.
  rewrite memory_serviced. destruct (io_memory_bundle_write_enable _).
  - apply size_write.
  - reflexivity.
Qed.

Lemma loop_body_stop cfg s : (loop_body cfg s).1 = halt_met cfg (serviced s).
Proof. unfold loop_body. destruct (halt_met cfg (serviced s)); reflexivity. Qed.

Lemma step_halted cfg s :
  halt_met cfg (serviced s) = true ->
  step cfg s = print (HaltMet (halt_address cfg)) (serviced s).
Proof. intros H. unfold step, loop_body. now rewrite H. Qed.

Lemma step_continues cfg s :
  halt_met cfg (serviced s) = false ->
  step cfg s = report_progress cfg (serviced s).
Proof. intros H. unfold step, loop_body. now rewrite H. Qed.

Lemma loop_body_eq cfg s : loop_body cfg s = (halt_met cfg (serviced s), step cfg s).
Proof. unfold step, loop_body. destruct (halt_met cfg (serviced s)); reflexivity. Qed.

Lemma main_time_step cfg s : main_time (step cfg s) = wrap64 (main_time s + 1).
Proof.
  rewrite <- main_time_serviced. unfold step, loop_body, report_progress, print.
  split_body; reflexivity.
Qed.

Lemma top_step cfg s : top (step cfg s) = eval (drive s).
Proof.
  rewrite <- top_serviced. unfold step, loop_body, report_progress, print.
  split_body; reflexivity.
Qed.

Lemma memory_step cfg s : memory (step cfg s) = memory (serviced s).
Proof.
  unfold step, loop_body, report_progress, print. split_body; reflexivity.
Qed.

(** *** Fuel *)

Lemma run_loop_more cfg fuel : forall s r,
  run_loop cfg fuel s = Some r ->
  forall fuel', (fuel <= fuel')%nat -> run_loop cfg fuel' s = Some r.
Proof.
  induction fuel as [| fuel IH]; intros s r Hrun fuel' Hle.
  - simpl in Hrun. destruct fuel'; simpl;
      destruct (loop_cond cfg s); congruence.
  - destruct fuel' as [| fuel']; [lia |]. simpl in *.
    destruct (loop_cond cfg s); [| exact Hrun].
    destruct (loop_body cfg s) as [[] s']; [exact Hrun |].
    apply (IH s' r Hrun). lia.
Qed.

Lemma loop_cond_true cfg s :
  loop_cond cfg s = true ->
  main_time s < max_sim_time cfg /\ gotFinish (top s) = false.
Proof.
  unfold loop_cond. intros [H1 H2]%andb_prop.
  apply N.ltb_lt in H1. apply negb_true_iff in H2. auto.
Qed.

(** The equation of the [while] loop. *)
Lemma loop_unfold cfg s :
  max_sim_time cfg < 2 ^ 64 ->
  loop cfg s =
    if loop_cond cfg s then
      if halt_met cfg (serviced s) then Some (step cfg s) else loop cfg (step cfg s)
    else Some s.
Proof.
  intros Hmax. unfold loop.
  destruct (loop_cond cfg s) eqn:Hcond.
  - destruct (loop_cond_true _ _ Hcond) as [Hlt _].
    rewrite main_time_step, wrap64_small by lia.
    replace (N.to_nat (max_sim_time cfg - main_time s))
      with (S (N.to_nat (max_sim_time cfg - (main_time s + 1)))) by lia.
    cbn [run_loop]. rewrite Hcond, loop_body_eq.
    destruct (halt_met cfg (serviced s)); reflexivity.
  - destruct (N.to_nat _); simpl; now rewrite Hcond.
Qed.

(** Induction along the iterations of the loop. *)
Lemma loop_induction cfg (P : t design -> option (t design) -> Prop) :
  max_sim_time cfg < 2 ^ 64 ->
  (forall s, loop_cond cfg s = false -> P s (Some s)) ->
  (forall s, loop_cond cfg s = true -> halt_met cfg (serviced s) = true ->
     P s (Some (step cfg s))) ->
  (forall s, loop_cond cfg s = true -> halt_met cfg (serviced s) = false ->
     P (step cfg s) (loop cfg (step cfg s)) -> P s (loop cfg (step cfg s))) ->
  forall s, P s (loop cfg s).
Proof.
  intros Hmax Hexit Hbreak Hnext s.
  remember (N.to_nat (max_sim_time cfg - main_time s)) as n eqn:Hn.
  revert s Hn. induction n as [| n IH]; intros s Hn.
  - rewrite loop_unfold by exact Hmax.
    destruct (loop_cond cfg s) eqn:Hcond; [| now apply Hexit].
    destruct (loop_cond_true _ _ Hcond). lia.
  - rewrite loop_unfold by exact Hmax.
    destruct (loop_cond cfg s) eqn:Hcond; [| now apply Hexit].
    destruct (halt_met cfg (serviced s)) eqn:Hhalt; [now apply Hbreak |].
    apply Hnext; [assumption .. |]. apply IH.
    destruct (loop_cond_true _ _ Hcond).
    rewrite main_time_step, wrap64_small by lia. lia.
Qed.

(** The loop always ends: by its guard or by the halt check. *)
Lemma loop_total cfg s :
  max_sim_time cfg < 2 ^ 64 -> is_Some (loop cfg s).
Proof.
  intros Hmax. revert s.
  apply (loop_induction cfg (fun _ r => is_Some r)); eauto.
Qed.

Lemma loop_reaches cfg s s' :
  max_sim_time cfg < 2 ^ 64 ->
  reaches cfg s s' -> loop cfg s = loop cfg s'.
Proof.
  intros Hmax Hreach. induction Hreach as [s | s s' s'' Hcond Hbody _ IH].
  - reflexivity.
  - rewrite (loop_unfold cfg s) by exact Hmax. rewrite Hcond.
    rewrite loop_body_eq in Hbody. injection Hbody as -> ->. exact IH.
Qed.

End Loop.

Section Driver.
Context {design : Type} {core : Verilated design}.
Implicit Types (cfg : config) (s : t design).

(** [drive] puts the two pending words on the core's inputs. *)
Lemma drive_inputs s :
  io_memory_bundle_read_data (drive s) = data_memory_read_word s /\
  io_instruction (drive s) = inst_memory_read_word s.
Proof. unfold drive. split_body; split; reflexivity. Qed.

(** C2: the two words an iteration reads from memory, at the addresses the
    core outputs after that iteration's [eval] (they are the first two bus
    operations of the iteration), are the [memory_read_data] and
    [instruction] inputs the next iteration drives before its [eval]; the
    first iteration drives 0 on both. *)
Theorem one_step_latency cfg s :
  let outputs := eval (drive s) in
  let data := Memory.read (memory s) (io_memory_bundle_address outputs) in
  let inst := Memory.read (memory s) (io_instruction_address outputs) in
  let s' := step cfg s in
  (exists writes,
     bus s' = bus s ++ [BusRead (io_memory_bundle_address outputs) data;
                        BusRead (io_instruction_address outputs) inst] ++ writes) /\
  io_memory_bundle_read_data (drive s') = data /\
  io_instruction (drive s') = inst /\
  (forall s0,
     io_memory_bundle_read_data (drive (start s0)) = 0 /\
     io_instruction (drive (start s0)) = 0).
Proof.
  cbv zeta.
  rewrite (proj1 (drive_inputs (step cfg s))), (proj2 (drive_inputs (step cfg s))).
  split; [| split; [| split]].
  - open_body. split_body; eexists; reflexivity.
  - open_body. split_body; reflexivity.
  - open_body. split_body; reflexivity.
  - intros s0. split; [apply (drive_inputs (start s0)) | apply (drive_inputs (start s0))].
Qed.

Lemma read_lookup (m : Memory.t) address w :
  m !! N.to_nat (address / 4) = Some w -> Memory.read m address = w.
Proof.
  intros H. pose proof (lookup_lt_Some _ _ _ H) as Hlt.
  rewrite read_in_range by (unfold Memory.size; lia).
  unfold Memory.at_index. now rewrite H.
Qed.

(** C3: with a nonzero halt address, if the loop has come to a state [s]
    from which it enters step [K = main_time s + 1] (the budget allows it
    and the core has not finished) and, once the bus is serviced in that
    step, the word holding the halt address is 0xBABECAFE, then the loop
    ends right there: its final state is that of step [K] after the halt
    message, and [main_time] is [K]. *)
Theorem halt_sentinel_stops cfg s0 s :
  max_sim_time cfg < 2 ^ 64 ->
  halt_address cfg <> 0 ->
  reaches cfg s0 s ->
  main_time s < max_sim_time cfg ->
  gotFinish (top s) = false ->
  memory (serviced s) !! N.to_nat (halt_address cfg / 4) = Some HALT_SENTINEL ->
  loop cfg s0 = Some (print (HaltMet (halt_address cfg)) (serviced s)) /\
  main_time (print (HaltMet (halt_address cfg)) (serviced s)) = main_time s + 1.
Proof.
  intros Hmax Hhalt Hreach Hlt Hfin Hword.
  assert (Hmet : halt_met cfg (serviced s) = true).
  { unfold halt_met. rewrite (read_lookup _ _ _ Hword), N.eqb_refl.
    apply N.eqb_neq in Hhalt. now rewrite Hhalt. }
  split.
  - rewrite (loop_reaches cfg s0 s Hmax Hreach), loop_unfold by exact Hmax.
    unfold loop_cond. apply N.ltb_lt in Hlt. rewrite Hlt, Hfin. cbn [andb negb].
    rewrite Hmet. f_equal. now apply step_halted.
  - unfold print. cbn [main_time].
    rewrite main_time_serviced, wrap64_small by lia. reflexivity.
Qed.

(** Without halt address and without [$finish] the loop leaves [s] by the
    time budget, after as many iterations as [main_time] is short of it. *)
Lemma loop_runs_to_budget cfg :
  max_sim_time cfg < 2 ^ 64 ->
  halt_address cfg = 0 ->
  (forall x : VTop design, gotFinish x = false) ->
  forall s,
    main_time s <= max_sim_time cfg ->
    exists r,
      loop cfg s = Some r /\
      r = Nat.iter (N.to_nat (max_sim_time cfg - main_time s)) (step cfg) s /\
      main_time r = max_sim_time cfg.
Proof.
  intros Hmax Hhalt Hfin.
  apply (loop_induction cfg
           (fun s res =>
              main_time s <= max_sim_time cfg ->
              exists r, res = Some r /\
                r = Nat.iter (N.to_nat (max_sim_time cfg - main_time s)) (step cfg) s /\
                main_time r = max_sim_time cfg)); [exact Hmax | | |].
  - intros s Hcond Hle. unfold loop_cond in Hcond.
    rewrite Hfin, andb_true_r in Hcond. apply N.ltb_ge in Hcond.
    exists s. replace (max_sim_time cfg - main_time s) with 0 by lia.
    split; [reflexivity | split; [reflexivity | lia]].
  - intros s _ Hmet. unfold halt_met in Hmet. rewrite Hhalt in Hmet. discriminate.
  - intros s Hcond _ IH Hle. destruct (loop_cond_true _ _ Hcond) as [Hlt _].
    assert (Htime : main_time (step cfg s) = main_time s + 1)
      by (rewrite main_time_step, wrap64_small by lia; reflexivity).
    destruct IH as (r & Hr & Hiter & Hend); [lia |].
    exists r. split; [exact Hr | split; [| exact Hend]].
    rewrite Hiter, Htime.
    replace (N.to_nat (max_sim_time cfg - main_time s))
      with (S (N.to_nat (max_sim_time cfg - (main_time s + 1)))) by lia.
    now rewrite Nat.iter_succ_r.
Qed.

(** C4: with the halt address 0 and a core that never finishes, the loop
    entered at [main_time = 0] terminates; its final state is the one that
    exactly [max_sim_time] iterations produce, and there [main_time] is
    [max_sim_time]. *)
Theorem time_budget_stop cfg s :
  max_sim_time cfg < 2 ^ 64 ->
  halt_address cfg = 0 ->
  (forall x : VTop design, gotFinish x = false) ->
  main_time s = 0 ->
  exists r,
    loop cfg s = Some r /\
    r = Nat.iter (N.to_nat (max_sim_time cfg)) (step cfg) s /\
    main_time r = max_sim_time cfg /\
    loop_cond cfg r = false.
Proof.
  intros Hmax Hhalt Hfin Hzero.
  destruct (loop_runs_to_budget cfg Hmax Hhalt Hfin s) as (r & Hr & Hiter & Hend);
    [lia |].
  rewrite Hzero, N.sub_0_r in Hiter.
  exists r. split; [exact Hr | split; [exact Hiter | split; [exact Hend |]]].
  unfold loop_cond. rewrite Hend, N.ltb_irrefl. reflexivity.
Qed.

(** *** The tracer is write-only *)

Lemma loop_body_untraced cfg s :
  loop_body cfg (set_vcd_tracer None s) =
    ((loop_body cfg s).1, set_vcd_tracer None (loop_body cfg s).2).
Proof.
  open_all. split_body; reflexivity.
Qed.

Lemma run_loop_untraced cfg fuel : forall s,
  run_loop cfg fuel (set_vcd_tracer None s) =
    option_map (set_vcd_tracer None) (run_loop cfg fuel s).
Proof.
  induction fuel as [| fuel IH]; intros s; cbn [run_loop];
    change (loop_cond cfg (set_vcd_tracer None s)) with (loop_cond cfg s);
    destruct (loop_cond cfg s); try reflexivity.
  rewrite loop_body_untraced.
  destruct (loop_body cfg s) as [[] s']; cbn [fst snd]; [reflexivity | apply IH].
Qed.

Lemma generate_signature_untraced cfg s :
  generate_signature cfg (set_vcd_tracer None s) =
    option_map (set_vcd_tracer None) (generate_signature cfg s).
Proof.
  unfold generate_signature.
  destruct (signature_opens cfg); [| reflexivity].
  change (memory (set_vcd_tracer None s)) with (memory s).
  destruct (signature_lines _ _ _ _); reflexivity.
Qed.

Lemma run_untraced cfg s :
  run cfg (set_vcd_tracer None s) = option_map (set_vcd_tracer None) (run cfg s).
Proof.
  unfold run, loop.
  change (start (set_vcd_tracer None s)) with (set_vcd_tracer None (start s)).
  change (main_time (set_vcd_tracer None (start s))) with (main_time (start s)).
  rewrite run_loop_untraced.
  destruct (run_loop cfg _ (start s)) as [r |]; cbn [option_map]; [| reflexivity].
  destruct (dump_signature cfg); [apply generate_signature_untraced | reflexivity].
Qed.

(** C8: whatever tracer a simulator holds (an enabled one in particular),
    [run] ends in the state that [run] without tracer ends in, up to the
    dump file: the same memory and the same sequence of bus operations
    (and the same core signals, time and output). *)
Theorem tracing_is_transparent cfg s (tfp : VCDTracer.t design) :
  let traced := run cfg (set_vcd_tracer tfp s) in
  let plain := run cfg (set_vcd_tracer VCDTracer.make s) in
  option_map (set_vcd_tracer None) traced = plain /\
  option_map memory traced = option_map memory plain /\
  option_map bus traced = option_map bus plain.
Proof.
  cbv zeta.
  assert (H : option_map (set_vcd_tracer None) (run cfg (set_vcd_tracer tfp s))
              = run cfg (set_vcd_tracer VCDTracer.make s)).
  { rewrite <- run_untraced. reflexivity. }
  split; [exact H |]. rewrite <- H.
  destruct (run cfg (set_vcd_tracer tfp s)); split; reflexivity.
Qed.

(** *** The progress report *)

Lemma boundary_multiple max_ time :
  10 < max_ -> max_ mod 10 = 0 -> 0 < time <= max_ ->
  time mod (max_ / 10) = 0 <-> ten_percent_boundary max_ time.
Proof.
  intros Hbig Hten Htime. unfold ten_percent_boundary.
  apply N.Div0.div_exact in Hten. set (q := max_ / 10) in *.
  assert (Hq : q <> 0) by lia.
  split.
  - intros Hmod. apply N.Div0.div_exact in Hmod.
    exists (time / q). split; [| nia].
    set (k := time / q) in *. nia.
  - intros (k & Hk & Heq). rewrite Hten in Heq.
    assert (Hkq : time = k * q) by nia.
    rewrite Hkq. apply N.Div0.mod_mul.
Qed.

Lemma loop_body_console_blind cfg printed s :
  (loop_body cfg (set_console printed s)).1 = (loop_body cfg s).1 /\
  set_console [] (step cfg (set_console printed s)) = set_console [] (step cfg s).
Proof.
  open_all. split_body; split; reflexivity.
Qed.

(** C9, as the code has it: an iteration that does not stop on the halt
    check prints exactly one progress notice when [max_sim_time] exceeds 10
    and the (positive) time is a multiple of [max_sim_time / 10], and
    nothing otherwise; when [max_sim_time] is a multiple of 10 these times
    are the 10 percent boundaries.  The report changes nothing but the
    output: signals, memory, time, pending words, bus and the loop guard
    are those before it, and an iteration does not depend on what was
    printed earlier. *)
Theorem progress_report_contract cfg s :
  let s1 := serviced s in
  let s' := step cfg s in
  let time := main_time s1 in
  halt_met cfg s1 = false ->
  (10 < max_sim_time cfg -> 0 < time -> time mod (max_sim_time cfg / 10) = 0 ->
     console s' =
       console s1 ++ [Progress (wrap64 (time * 100) / max_sim_time cfg)]) /\
  (max_sim_time cfg <= 10 \/ time = 0 \/ time mod (max_sim_time cfg / 10) <> 0 ->
     console s' = console s1) /\
  (10 < max_sim_time cfg -> max_sim_time cfg mod 10 = 0 ->
     0 < time <= max_sim_time cfg ->
     time mod (max_sim_time cfg / 10) = 0 <->
     ten_percent_boundary (max_sim_time cfg) time) /\
  set_console (console s1) s' = s1 /\
  loop_cond cfg s' = loop_cond cfg s1 /\
  (forall printed,
     (loop_body cfg (set_console printed s)).1 = (loop_body cfg s).1 /\
     set_console [] (step cfg (set_console printed s)) = set_console [] s').
Proof.
  cbv zeta. intros Hgo.
  pose proof (step_continues _ _ Hgo) as Hstep.
  unfold report_progress, progress_due in Hstep.
  split; [| split; [| split; [| split; [| split]]]].
  - intros Hbig Hpos Hmod.
    apply N.ltb_lt in Hbig, Hpos. apply N.eqb_eq in Hmod.
    rewrite Hbig, Hpos, Hmod in Hstep. rewrite Hstep. reflexivity.
  - intros [Hsmall | [Hzero | Hmod]].
    + apply N.ltb_ge in Hsmall. rewrite Hsmall, andb_false_r in Hstep.
      now rewrite Hstep.
    + rewrite Hzero in Hstep. now rewrite Hstep.
    + apply N.eqb_neq in Hmod. rewrite Hmod, andb_false_r in Hstep.
      now rewrite Hstep.
  - intros Hbig Hten Htime. now apply boundary_multiple.
  - rewrite Hstep. destruct (_ && _ && _); destruct (serviced s); reflexivity.
  - rewrite Hstep. destruct (_ && _ && _); reflexivity.
  - intros printed. apply loop_body_console_blind.
Qed.

(** *** A halt address outside the memory *)

Lemma halt_met_out_of_range cfg s :
  Memory.size (memory s) <= halt_address cfg / 4 -> halt_met cfg s = false.
Proof.
  intros H. unfold halt_met. rewrite read_out_of_range by exact H.
  apply andb_false_r.
Qed.

Lemma size_memory_step cfg s :
  Memory.size (memory (step cfg s)) = Memory.size (memory s).
Proof. rewrite memory_step. apply size_memory_serviced. Qed.

Lemma size_memory_reaches cfg s s' :
  reaches cfg s s' -> Memory.size (memory s') = Memory.size (memory s).
Proof.
  induction 1 as [s | s s' s'' _ Hbody _ IH]; [reflexivity |].
  rewrite loop_body_eq in Hbody. injection Hbody as _ <-.
  rewrite IH. apply size_memory_step.
Qed.

Lemma report_progress_halt_address a cfg s :
  report_progress (set_halt_address a cfg) s = report_progress cfg s.
Proof. reflexivity. Qed.

(** C10: with a nonzero halt address whose word index is outside the
    memory, the halt check fails in every state the loop comes to; the loop
    ends, with its guard false (time budget reached or core finished), in
    the very state the loop without halt address ends in. *)
Theorem halt_out_of_range_never cfg s :
  max_sim_time cfg < 2 ^ 64 ->
  halt_address cfg <> 0 ->
  Memory.size (memory s) <= halt_address cfg / 4 ->
  (forall x, reaches cfg s x -> halt_met cfg (serviced x) = false) /\
  exists r,
    loop cfg s = Some r /\
    loop_cond cfg r = false /\
    loop (set_halt_address 0 cfg) s = Some r.
Proof.
  intros Hmax _ Hout. split.
  - intros x Hreach. apply halt_met_out_of_range.
    rewrite size_memory_serviced, (size_memory_reaches _ _ _ Hreach). exact Hout.
  - revert s Hout.
    apply (loop_induction cfg
             (fun s res =>
                Memory.size (memory s) <= halt_address cfg / 4 ->
                exists r, res = Some r /\ loop_cond cfg r = false /\
                          loop (set_halt_address 0 cfg) s = Some r));
      [exact Hmax | | |].
    + intros s Hcond _. exists s. rewrite loop_unfold by exact Hmax.
      change (loop_cond (set_halt_address 0 cfg) s) with (loop_cond cfg s).
      rewrite Hcond. auto.
    + intros s _ Hmet Hout.
      rewrite halt_met_out_of_range in Hmet; [discriminate |].
      now rewrite size_memory_serviced.
    + intros s Hcond Hmet IH Hout.
      destruct IH as (r & Hr & Hend & Hplain);
        [now rewrite size_memory_step |].
      exists r. split; [exact Hr | split; [exact Hend |]].
      rewrite loop_unfold by exact Hmax.
      change (loop_cond (set_halt_address 0 cfg) s) with (loop_cond cfg s).
      rewrite Hcond.
      change (halt_met (set_halt_address 0 cfg) (serviced s)) with false.
      rewrite <- Hplain. f_equal.
      rewrite (step_continues (set_halt_address 0 cfg)) by reflexivity.
      now rewrite (step_continues cfg) by exact Hmet.
Qed.

End Driver.

(** ** The harness around scripted cores *)

(** A core that stores the sentinel at address 8 in step 2 stops a run
    with halt address 8 at time 2, far below the budget of 100. *)
Example run_halts_at_step_2 :
  option_map (fun r => (main_time r, console r, memory r))
    (run (Config 100 8 false 0 0 false)
       (construct
          (Scripted.power_on
             [Scripted.idle; Scripted.idle; Scripted.store 8 0xBABECAFE])
          None (Memory.make 4)))
  = Some (2, [HaltMet 8], [0; 0; 0xBABECAFE; 0]).
Proof. vm_compute. reflexivity. Qed.

(** With an enabled tracer the same run dumps at times 0, 1 and 2. *)
Example run_dumps_each_step :
  option_map (fun r => option_map (map fst) (vcd_tracer r))
    (run (Config 100 8 false 0 0 false)
       (construct
          (Scripted.power_on
             [Scripted.idle; Scripted.idle; Scripted.store 8 0xBABECAFE])
          (VCDTracer.enable VCDTracer.make) (Memory.make 4)))
  = Some (Some [0; 1; 2]).
Proof. vm_compute. reflexivity. Qed.

(** A budget of 25: notices at the even times, none at time 5 (20 percent). *)
Example run_progress_25 :
  option_map (fun r => (main_time r, console r))
    (run (Config 25 0 false 0 0 false)
       (construct (Scripted.power_on []) None (Memory.make 4)))
  = Some (25, map Progress [8; 16; 24; 32; 40; 48; 56; 64; 72; 80; 88; 96]).
Proof. vm_compute. reflexivity. Qed.

(** An out-of-range store is reported and the run goes on (the scripted
    core holds the store for the three iterations). *)
Example run_reports_invalid_write :
  option_map (fun r => (main_time r, console r, memory r))
    (run (Config 3 0 false 0 0 false)
       (construct
          (Scripted.power_on [Scripted.idle; Scripted.store 0x1003 5])
          None (Memory.make 4)))
  = Some (3, [InvalidWrite 0x1000; InvalidWrite 0x1000; InvalidWrite 0x1000],
          [0; 0; 0; 0]).
Proof. vm_compute. reflexivity. Qed.

Lemma halt_sentinel_stops_witness :
  let cfg := Config 100 8 false 0 0 false in
  let s0 :=
    start (construct
             (Scripted.power_on
                [Scripted.idle; Scripted.idle; Scripted.store 8 0xBABECAFE])
             None (Memory.make 4)) in
  let s := step cfg s0 in
  loop cfg s0 = Some (print (HaltMet (halt_address cfg)) (serviced s)) /\
  main_time (print (HaltMet (halt_address cfg)) (serviced s)) = main_time s + 1.
Proof.
  cbv zeta. apply halt_sentinel_stops.
  - vm_compute. reflexivity.
  - discriminate.
  - eapply reaches_next; [| | apply reaches_here]; vm_compute; reflexivity.
  - vm_compute. reflexivity.
  - reflexivity.
  - vm_compute. reflexivity.
Defined.

Lemma time_budget_stop_witness :
  let cfg := Config 12 0 false 0 0 false in
  let s :=
    start (construct (Scripted.power_on [Scripted.idle; Scripted.store 4 7])
             None (Memory.make 4)) in
  exists r,
    loop cfg s = Some r /\
    r = Nat.iter (N.to_nat (max_sim_time cfg)) (step cfg) s /\
    main_time r = max_sim_time cfg /\
    loop_cond cfg r = false.
Proof.
  cbv zeta. apply time_budget_stop.
  - vm_compute. reflexivity.
  - reflexivity.
  - intros x. reflexivity.
  - reflexivity.
Defined.

Lemma progress_report_contract_witness :
  let cfg := Config 20 0 false 0 0 false in
  let s :=
    step cfg (start (construct (Scripted.power_on []) None (Memory.make 4))) in
  console (step cfg s) = console (serviced s) ++ [Progress 10] /\
  set_console (console (serviced s)) (step cfg s) = serviced s /\
  loop_cond cfg (step cfg s) = loop_cond cfg (serviced s).
Proof.
  cbv zeta.
  destruct (progress_report_contract (Config 20 0 false 0 0 false)
              (step (Config 20 0 false 0 0 false)
                 (start (construct (Scripted.power_on []) None (Memory.make 4)))))
    as (Hdue & _ & _ & Hframe & Hguard & _).
  - reflexivity.
  - split; [| split; assumption].
    apply Hdue; vm_compute; reflexivity.
Defined.

Lemma halt_out_of_range_never_witness :
  let cfg := Config 6 0x100 false 0 0 false in
  let s :=
    start (construct (Scripted.power_on [Scripted.idle; Scripted.store 4 0xBABECAFE])
             None (Memory.make 4)) in
  (forall x, reaches cfg s x -> halt_met cfg (serviced x) = false) /\
  exists r,
    loop cfg s = Some r /\
    loop_cond cfg r = false /\
    loop (set_halt_address 0 cfg) s = Some r.
Proof.
  cbv zeta. apply halt_out_of_range_never.
  - vm_compute. reflexivity.
  - discriminate.
  - vm_compute. discriminate.
Defined.

(** C9 as stated does not hold.  With a budget of 25, time 5 is the 20
    percent boundary, the iteration that reaches it runs to its end, and no
    notice is printed; and an iteration that stops on the halt check prints
    no notice even at a multiple of [max_sim_time / 10]. *)
Lemma progress_not_at_every_boundary :
  ~ (forall cfg (s : t Scripted.script),
       10 < max_sim_time cfg ->
       loop_cond cfg s = true ->
       ten_percent_boundary (max_sim_time cfg) (main_time (step cfg s)) ->
       exists p, console (step cfg s) = console (serviced s) ++ [Progress p]) /\
  ~ (forall cfg (s : t Scripted.script),
       10 < max_sim_time cfg ->
       loop_cond cfg s = true ->
       main_time (step cfg s) mod (max_sim_time cfg / 10) = 0 ->
       exists p, console (step cfg s) = console (serviced s) ++ [Progress p]).
Proof.
  split.
  - intros H.
    destruct (H (Config 25 0 false 0 0 false)
                (Nat.iter 4 (step (Config 25 0 false 0 0 false))
                   (start (construct (Scripted.power_on []) None (Memory.make 4)))))
      as [p Hp].
    + vm_compute. reflexivity.
    + vm_compute. reflexivity.
    + exists 2. vm_compute. repeat split; discriminate.
    + vm_compute in Hp. discriminate Hp.
  - intros H.
    destruct (H (Config 20 8 false 0 0 false)
                (step (Config 20 8 false 0 0 false)
                   (start (construct
                             (Scripted.power_on
                                [Scripted.idle; Scripted.idle;
                                 Scripted.store 8 0xBABECAFE])
                             None (Memory.make 4)))))
      as [p Hp].
    + vm_compute. reflexivity.
    + vm_compute. reflexivity.
    + vm_compute. reflexivity.
    + vm_compute in Hp. discriminate Hp.
Qed.

(** * Further properties of the harness *)

(** ** Memory *)

Lemma at_index_lookup (m : Memory.t) i :
  i < Memory.size m -> m !! N.to_nat i = Some (Memory.at_index m i).
Proof.
  intros H. unfold Memory.at_index, Memory.size in *.
  destruct (lookup_lt_is_Some_2 m (N.to_nat i)) as [w Hw]; [lia |].
  now rewrite Hw.
Qed.

(** X1: a write changes at most the word that holds its address: reads of
    every other word return what they returned before, and all addresses
    of one word read the same. *)
Theorem write_touches_one_word (m : Memory.t) (a v : N) (ws : Memory.strobes) (b : N) :
  (b / 4 <> a / 4 ->
     Memory.read (Memory.write m a v ws).1 b = Memory.read m b) /\
  (b / 4 = a / 4 ->
     Memory.read (Memory.write m a v ws).1 b = Memory.read (Memory.write m a v ws).1 a
     /\ Memory.read m b = Memory.read m a).
Proof.
  split.
  - intros Hne. unfold Memory.read. rewrite size_write.
    destruct (Memory.size m <=? b / 4); [reflexivity |].
    unfold Memory.write. destruct (Memory.size m <=? a / 4); [reflexivity |].
    cbn [fst]. unfold Memory.at_index.
    rewrite list_lookup_insert_ne by lia. reflexivity.
  - intros Heq. unfold Memory.read. now rewrite Heq.
Qed.

(** X2: two writes to the same in-range word, lane by lane: the later
    write wins where its strobe is set, the earlier one where only its
    strobe is set, and the old byte stays where neither is. *)
Theorem write_lanes_last_wins (m : Memory.t) (a v1 v2 : N) (ws1 ws2 : Memory.strobes) :
  a / 4 < Memory.size m ->
  let m1 := (Memory.write m a v1 ws1).1 in
  let m2 := (Memory.write m1 a v2 ws2).1 in
  forall i, i < 4 ->
    byte_lane i (Memory.read m2 a) =
      if Memory.strobe ws2 i then byte_lane i v2
      else if Memory.strobe ws1 i then byte_lane i v1
      else byte_lane i (Memory.read m a).
Proof.
  intros Hin m1 m2 i Hi. subst m1 m2.
  rewrite read_after_write by (rewrite size_write; exact Hin).
  rewrite byte_lane_merge by exact Hi.
  destruct (Memory.strobe ws2 i); [reflexivity |].
  rewrite read_after_write by exact Hin.
  apply byte_lane_merge, Hi.
Qed.

Lemma write_lanes_last_wins_witness :
  let m := [0x11223344; 0xAABBCCDD] in
  let ws1 := Memory.Strobes true true false false in
  let ws2 := Memory.Strobes false true true false in
  let m1 := (Memory.write m 4 0x01020304 ws1).1 in
  let m2 := (Memory.write m1 4 0xF1F2F3F4 ws2).1 in
  byte_lane 0 (Memory.read m2 4) =
    if Memory.strobe ws2 0 then byte_lane 0 0xF1F2F3F4
    else if Memory.strobe ws1 0 then byte_lane 0 0x01020304
    else byte_lane 0 (Memory.read m 4).
Proof.
  apply (write_lanes_last_wins [0x11223344; 0xAABBCCDD] 4 0x01020304 0xF1F2F3F4
           (Memory.Strobes true true false false)
           (Memory.Strobes false true true false)).
  - vm_compute. reflexivity.
  - vm_compute. reflexivity.
Defined.

Example two_half_writes :
  Memory.read
    (Memory.write (Memory.write [0x11223344; 0xAABBCCDD] 4 0x01020304
                     (Memory.Strobes true true false false)).1
       4 0xF1F2F3F4 (Memory.Strobes false true true false)).1 4
  = 0xAAF2F304.
Proof. reflexivity. Qed.

(** X3: a write with no strobe set to an in-range word leaves the whole
    vector as it was and prints nothing (the word being a 32-bit value). *)
Theorem write_without_strobes (m : Memory.t) (a v : N) :
  a / 4 < Memory.size m ->
  Memory.read m a < 2 ^ 32 ->
  Memory.write m a v (Memory.Strobes false false false false) = (m, []).
Proof.
  intros Hin Hword. rewrite write_in_range by exact Hin.
  change (Memory.write_mask (Memory.Strobes false false false false)) with 0.
  change (not32 0) with (N.ones 32).
  rewrite N.land_0_r, N.lor_0_r, N.land_ones, N.mod_small by exact Hword.
  f_equal. apply list_insert_id.
  rewrite read_in_range by exact Hin. apply at_index_lookup, Hin.
Qed.

Lemma write_without_strobes_witness :
  Memory.write [0x11223344; 0xAABBCCDD] 6 0xFFFFFFFF
    (Memory.Strobes false false false false)
  = ([0x11223344; 0xAABBCCDD], []).
Proof.
  apply (write_without_strobes [0x11223344; 0xAABBCCDD] 6 0xFFFFFFFF).
  - vm_compute. reflexivity.
  - vm_compute. reflexivity.
Defined.

(** X4: a memory built for [size] words has that size and reads 0 at
    every address, inside or outside. *)
Theorem fresh_memory_reads_zero (size : N) (a : N) :
  Memory.size (Memory.make size) = size /\ Memory.read (Memory.make size) a = 0.
Proof.
  assert (Hsize : Memory.size (Memory.make size) = size).
  { unfold Memory.size, Memory.make. rewrite length_replicate. lia. }
  split; [exact Hsize |].
  unfold Memory.read. rewrite Hsize.
  destruct (N.leb_spec size (a / 4)); [reflexivity |].
  unfold Memory.at_index, Memory.make.
  rewrite lookup_replicate_2 by lia. reflexivity.
Qed.

(** ** Loading: bytes, partial words, unaligned load addresses *)

Lemma byte_high_bits b n : 8 <= n -> N.testbit (Byte.to_N b) n = false.
Proof.
  intros Hn. pose proof (Byte.to_N_bounded b) as Hb.
  rewrite <- (N.mod_small (Byte.to_N b) (2 ^ 8)) by (change (2 ^ 8) with 256; lia).
  apply N.mod_pow2_bits_high. exact Hn.
Qed.

Lemma shifted_byte_bit b s j n i :
  s = 8 * j -> n < 8 ->
  N.testbit (N.shiftl (Byte.to_N b) s) (n + 8 * i) =
    if i =? j then N.testbit (Byte.to_N b) n else false.
Proof.
  intros -> Hn. destruct (N.eqb_spec i j) as [-> | Hne].
  - rewrite N.shiftl_spec_high' by lia. f_equal. lia.
  - destruct (N.lt_ge_cases i j).
    + apply N.shiftl_spec_low. lia.
    + rewrite N.shiftl_spec_high' by lia. apply byte_high_bits. lia.
Qed.

(** The four bytes of a loaded word sit in its lanes in file order. *)
Lemma le_word_lanes b0 b1 b2 b3 :
  byte_lane 0 (Memory.le_word b0 b1 b2 b3) = Byte.to_N b0 /\
  byte_lane 1 (Memory.le_word b0 b1 b2 b3) = Byte.to_N b1 /\
  byte_lane 2 (Memory.le_word b0 b1 b2 b3) = Byte.to_N b2 /\
  byte_lane 3 (Memory.le_word b0 b1 b2 b3) = Byte.to_N b3.
Proof.
  assert (H : forall i, i < 4 ->
            byte_lane i (Memory.le_word b0 b1 b2 b3) =
              Byte.to_N (if i =? 0 then b0 else if i =? 1 then b1
                         else if i =? 2 then b2 else b3)).
  { intros i Hi. unfold byte_lane, Memory.le_word.
    apply N.bits_inj. intros n.
    rewrite N.land_spec, N.shiftr_spec', !N.lor_spec.
    destruct (N.ltb_spec n 8) as [Hn | Hn].
    - change 255 with (N.ones 8). rewrite N.ones_spec_low, andb_true_r by lia.
      rewrite <- (N.shiftl_0_r (Byte.to_N b0)) at 1.
      replace (n + i * 8) with (n + 8 * i) by lia.
      rewrite (shifted_byte_bit b0 0 0), (shifted_byte_bit b1 8 1),
        (shifted_byte_bit b2 16 2), (shifted_byte_bit b3 24 3)
        by (reflexivity || exact Hn).
      assert (Hc : i = 0 \/ i = 1 \/ i = 2 \/ i = 3) by lia.
      destruct Hc as [-> | [-> | [-> | ->]]]; cbn [N.eqb Pos.eqb];
        rewrite ?orb_false_r; reflexivity.
    - change 255 with (N.ones 8). rewrite N.ones_spec_high, andb_false_r by lia.
      symmetry. apply byte_high_bits. lia. }
  repeat split; [apply (H 0) | apply (H 1) | apply (H 2) | apply (H 3)]; reflexivity.
Qed.

(** What a successful [load_binary] did. *)
Lemma load_binary_success m content load_address m' :
  Memory.size m * 4 < 2 ^ 64 ->
  load_address + N.of_nat (length content) < 2 ^ 64 ->
  Memory.load_binary m (Some content) load_address = (m', None) ->
  load_address + N.of_nat (length content) <= Memory.size m * 4 /\
  m' = Memory.load_words (N.to_nat (N.of_nat (length content) / 4)) 0 content
         load_address m.
Proof.
  intros Hcap Hfit. unfold Memory.load_binary.
  rewrite (wrap64_small (N.of_nat (length content))),
    (wrap64_small (Memory.size m * 4)),
    (wrap64_small (load_address + N.of_nat (length content))) by lia.
  destruct (N.ltb_spec (Memory.size m * 4) (load_address + N.of_nat (length content)));
    [discriminate |].
  intros [= <-]. split; [assumption | reflexivity].
Qed.

Lemma image_word_byte content k j b :
  (j < 4)%nat ->
  content !! (4 * k + j)%nat = Some b ->
  is_Some (image_word content k) ->
  exists w, image_word content k = Some w /\
            byte_lane (N.of_nat j) w = Byte.to_N b.
Proof.
  intros Hj Hb [w Hw]. exists w. split; [exact Hw |].
  unfold image_word in Hw. rewrite <- lookup_drop in Hb.
  destruct (drop (4 * k) content) as [| b0 [| b1 [| b2 [| b3 rest]]]];
    try discriminate.
  injection Hw as <-.
  destruct (le_word_lanes b0 b1 b2 b3) as (H0 & H1 & H2 & H3).
  destruct j as [| [| [| [| j]]]]; [| | | | lia];
    cbn in Hb; injection Hb as <-; assumption.
Qed.

(** X5: after a successful load, byte [4k + j] of the image (within its
    whole words) is byte lane [j] of the word read at byte address
    [4 * (load_address / 4 + k) + j]. *)
Theorem load_then_read_bytes (m m' : Memory.t) (content : list byte)
    (load_address : N) (k j : nat) (b : byte) :
  Memory.size m * 4 < 2 ^ 64 ->
  load_address + N.of_nat (length content) < 2 ^ 64 ->
  Memory.load_binary m (Some content) load_address = (m', None) ->
  N.of_nat k < N.of_nat (length content) / 4 ->
  (j < 4)%nat ->
  content !! (4 * k + j)%nat = Some b ->
  byte_lane (N.of_nat j)
    (Memory.read m' (4 * (load_address / 4 + N.of_nat k) + N.of_nat j))
  = Byte.to_N b.
Proof.
  intros Hcap Hfit Hload Hk Hj Hb.
  destruct (load_binary_success _ _ _ _ Hcap Hfit Hload) as [Hok ->].
  pose proof (load_index_in_range m load_address _ Hok) as Hrange.
  set (len := N.of_nat (length content)) in *.
  pose proof (N.Div0.mul_div_le len 4) as Hdiv.
  assert (Hbytes : (4 * N.to_nat (len / 4) <= length content)%nat)
    by (subst len; lia).
  clearbody len.
  destruct (image_word_byte content k j b Hj Hb) as (w & Hw & Hlane).
  { apply image_word_is_Some. lia. }
  rewrite (read_lookup _ _ w); [exact Hlane |].
  replace ((4 * (load_address / 4 + N.of_nat k) + N.of_nat j) / 4)
    with (load_address / 4 + N.of_nat k).
  - rewrite load_words_lookup by assumption.
    case_decide; [| lia]. rewrite <- Hw. f_equal. lia.
  - apply (N.div_unique _ 4 _ (N.of_nat j)); lia.
Qed.

Lemma load_then_read_bytes_witness :
  byte_lane 2 (Memory.read [0; 0x04030201; 0; 0] (4 * (5 / 4 + 0) + 2)) = Byte.to_N x03.
Proof.
  apply (load_then_read_bytes (Memory.make 4) [0; 0x04030201; 0; 0]
           [x01; x02; x03; x04; x05; x06] 5 0 2 x03).
  - vm_compute. reflexivity.
  - vm_compute. reflexivity.
  - reflexivity.
  - vm_compute. reflexivity.
  - lia.
  - reflexivity.
Defined.

Lemma load_words_whole_words count : forall i stream load_address m,
  Memory.load_words count i (take (4 * count) stream) load_address m =
  Memory.load_words count i stream load_address m.
Proof.
  induction count as [| count IH]; intros i stream load_address m.
  - reflexivity.
  - replace (4 * S count)%nat with (S (S (S (S (4 * count))))) by lia.
    destruct stream as [| b0 [| b1 [| b2 [| b3 rest]]]]; try reflexivity.
    cbn [take Memory.load_words]. apply IH.
Qed.

(** X6: the bytes after the last whole word of a file do not matter:
    where the size check does not wrap (four times the vector size, and
    [load_address] plus the file size, are below 2^64), a load that
    succeeds leaves the memory that loading only the whole words of the
    file leaves, and that load succeeds too. *)
Theorem load_ignores_partial_word (m m' : Memory.t) (content : list byte)
    (load_address : N) :
  Memory.size m * 4 < 2 ^ 64 ->
  load_address + N.of_nat (length content) < 2 ^ 64 ->
  Memory.load_binary m (Some content) load_address = (m', None) ->
  Memory.load_binary m (Some (take (4 * (length content / 4)) content)) load_address
  = (m', None).
Proof.
  intros Hcap Hfit Hload.
  destruct (load_binary_success _ _ _ _ Hcap Hfit Hload) as [Hok ->].
  pose proof (Nat.Div0.mul_div_le (length content) 4) as Hle.
  set (q := (length content / 4)%nat) in *.
  assert (Hq : N.of_nat (length content) / 4 = N.of_nat q).
  { subst q. now rewrite Nat2N.inj_div. }
  unfold Memory.load_binary.
  rewrite length_take, Nat.min_l by exact Hle.
  rewrite (wrap64_small (N.of_nat (4 * q))), (wrap64_small (Memory.size m * 4)),
    (wrap64_small (load_address + N.of_nat (4 * q))) by lia.
  destruct (N.ltb_spec (Memory.size m * 4) (load_address + N.of_nat (4 * q)));
    [lia |].
  f_equal. rewrite Hq.
  replace (N.of_nat (4 * q) / 4) with (N.of_nat q).
  - rewrite Nat2N.id. apply load_words_whole_words.
  - replace (N.of_nat (4 * q)) with (N.of_nat q * 4) by lia.
    now rewrite N.div_mul.
Qed.

Lemma load_ignores_partial_word_witness :
  Memory.load_binary (Memory.make 4)
    (Some (take (4 * (length [x01; x02; x03; x04; x05; x06] / 4))
             [x01; x02; x03; x04; x05; x06])) 4
  = ([0; 0x04030201; 0; 0], None).
Proof.
  apply (load_ignores_partial_word (Memory.make 4) [0; 0x04030201; 0; 0]
           [x01; x02; x03; x04; x05; x06] 4).
  - vm_compute. reflexivity.
  - vm_compute. reflexivity.
  - reflexivity.
Defined.

Lemma load_words_same_word count : forall i stream a a' m,
  a / 4 = a' / 4 ->
  Memory.load_words count i stream a m = Memory.load_words count i stream a' m.
Proof.
  induction count as [| count IH]; intros i stream a a' m Heq.
  - reflexivity.
  - destruct stream as [| b0 [| b1 [| b2 [| b3 rest]]]]; try reflexivity.
    cbn [Memory.load_words]. rewrite Heq. now apply IH.
Qed.

(** X7: a load address that is not a multiple of 4 is rounded down:
    where the size check does not wrap (four times the vector size, and
    [load_address] plus the file size, are below 2^64), when the load
    succeeds, the words land where a load at [4 * (load_address / 4)] puts
    them, and that load succeeds as well. *)
Theorem load_address_rounds_down (m m' : Memory.t) (content : list byte)
    (load_address : N) :
  Memory.size m * 4 < 2 ^ 64 ->
  load_address + N.of_nat (length content) < 2 ^ 64 ->
  Memory.load_binary m (Some content) load_address = (m', None) ->
  Memory.load_binary m (Some content) (4 * (load_address / 4)) = (m', None).
Proof.
  intros Hcap Hfit Hload.
  destruct (load_binary_success _ _ _ _ Hcap Hfit Hload) as [Hok ->].
  pose proof (N.Div0.mul_div_le load_address 4) as Hdown.
  unfold Memory.load_binary.
  rewrite (wrap64_small (N.of_nat (length content))),
    (wrap64_small (Memory.size m * 4)),
    (wrap64_small (4 * (load_address / 4) + N.of_nat (length content))) by lia.
  destruct (N.ltb_spec (Memory.size m * 4)
              (4 * (load_address / 4) + N.of_nat (length content))); [lia |].
  f_equal. apply load_words_same_word.
  rewrite N.mul_comm. apply N.div_mul. discriminate.
Qed.

Lemma load_address_rounds_down_witness :
  Memory.load_binary (Memory.make 4) (Some [x01; x02; x03; x04; x05; x06]) (4 * (6 / 4))
  = ([0; 0x04030201; 0; 0], None).
Proof.
  apply (load_address_rounds_down (Memory.make 4) [0; 0x04030201; 0; 0]
           [x01; x02; x03; x04; x05; x06] 6).
  - vm_compute. reflexivity.
  - vm_compute. reflexivity.
  - reflexivity.
Defined.

(** ** Signature: any range, reading lines back, dumping a loaded image *)

Lemma signature_lines_count m count : forall fuel addr signature_end,
  signature_end + 4 <= 2 ^ 64 ->
  signature_end <= addr + 4 * N.of_nat count ->
  (count = 0%nat \/ addr + 4 * N.of_nat (count - 1) < signature_end) ->
  (count <= fuel)%nat ->
  signature_lines fuel m addr signature_end =
    Some (map (fun k => snprintf_9_08x (Memory.read m (addr + 4 * N.of_nat k)))
              (seq 0 count)).
Proof.
  induction count as [| count IH]; intros fuel addr signature_end Hmax Hup Hlow Hfuel.
  - destruct fuel; simpl;
      (destruct (N.ltb_spec addr signature_end); [lia | reflexivity]).
  - destruct fuel as [| fuel]; [lia |]. simpl signature_lines.
    destruct Hlow as [Hzero | Hlow]; [discriminate |].
    destruct (N.ltb_spec addr signature_end); [| lia].
    rewrite wrap64_small by lia.
    rewrite (IH fuel (addr + 4) signature_end); [| lia | lia | | lia].
    + cbn [option_map seq map]. f_equal. f_equal.
      * f_equal. f_equal. lia.
      * rewrite <- seq_shift, map_map. apply map_ext. intros k. do 2 f_equal. lia.
    + destruct count as [| count]; [now left | right].
      replace (S (S count) - 1)%nat with (S count) in Hlow by lia.
      replace (S count - 1)%nat with count by lia. lia.
Qed.

(** X8: for any [begin] and any [end] up to 2^64 - 4 (so for every pair
    of 32-bit values), aligned or not, in order or not,
    [generate_signature] returns with [(end - begin + 3) / 4] lines (none
    when [end <= begin]); line [k] is the numeral of the word that holds
    address [begin + 4 * k]. *)
Theorem signature_any_range {design} (cfg : config) (s : t design) :
  signature_opens cfg = true ->
  signature_end cfg + 4 <= 2 ^ 64 ->
  exists lines,
    option_map signature_file (generate_signature cfg s) = Some (Some lines) /\
    N.of_nat (length lines) = (signature_end cfg - signature_begin cfg + 3) / 4 /\
    forall k, (k < length lines)%nat ->
      lines !! k =
        Some (hex8 (Memory.read (memory s) (signature_begin cfg + 4 * N.of_nat k))).
Proof.
  intros Hopen Hmax.
  set (b := signature_begin cfg) in *. set (e := signature_end cfg) in *.
  pose proof (N.Div0.mul_div_le (e - b + 3) 4) as Hlow.
  pose proof (N.mul_succ_div_gt (e - b + 3) 4) as Hup.
  set (q := (e - b + 3) / 4) in *.
  eexists. unfold generate_signature. rewrite Hopen. fold b e.
  rewrite (signature_lines_count _ (N.to_nat q)); [| exact Hmax | lia | | lia].
  - cbn [option_map signature_file]. split; [reflexivity |].
    rewrite length_map, length_seq. split; [lia |].
    intros k Hk.
    rewrite list_lookup_fmap, lookup_seq_lt by exact Hk.
    cbn [fmap option_fmap option_map Nat.add]. f_equal. apply snprintf_9_08x_hex8.
  - destruct (N.to_nat q) eqn:Hq; [now left | right]. lia.
Qed.

Example signature_unaligned_range :
  option_map signature_file
    (generate_signature (Config 10 0 true 5 11 true)
       (construct (Scripted.power_on []) None [1; 0xBABECAFE; 0x2A; 7]))
  = Some (Some ["babecafe"; "0000002a"]%string).
Proof. reflexivity. Qed.

Lemma signature_any_range_witness :
  exists lines,
    option_map signature_file
      (generate_signature (Config 10 0 true 5 11 true)
         (construct (Scripted.power_on []) None [1; 0xBABECAFE; 0x2A; 7]))
      = Some (Some lines) /\
    N.of_nat (length lines) = (11 - 5 + 3) / 4.
Proof.
  destruct (signature_any_range (Config 10 0 true 5 11 true)
              (construct (Scripted.power_on []) None [1; 0xBABECAFE; 0x2A; 7]))
    as (lines & Hfile & Hlen & _).
  - reflexivity.
  - vm_compute. discriminate.
  - exists lines. split; assumption.
Defined.

Lemma hex_value_digit d : d < 16 -> hex_value (hex_digit d) = d.
Proof.
  intros Hd.
  assert (Hc : d = 0 \/ d = 1 \/ d = 2 \/ d = 3 \/ d = 4 \/ d = 5 \/ d = 6 \/ d = 7 \/
               d = 8 \/ d = 9 \/ d = 10 \/ d = 11 \/ d = 12 \/ d = 13 \/ d = 14 \/
               d = 15) by lia.
  repeat (destruct Hc as [-> | Hc]; [reflexivity |]). subst d. reflexivity.
Qed.

Lemma unhex_fixed_hex width : forall n,
  unhex (fixed_hex width n) = n mod 16 ^ N.of_nat width.
Proof.
  induction width as [| width IH]; intros n.
  - cbn. now rewrite N.mod_1_r.
  - cbn [fixed_hex]. unfold unhex in *. rewrite fold_left_app. cbn [fold_left].
    rewrite IH, hex_value_digit by (apply N.mod_upper_bound; discriminate).
    replace (N.of_nat (S width)) with (N.succ (N.of_nat width)) by lia.
    rewrite N.pow_succ_r', N.Div0.mod_mul_r. lia.
Qed.

(** X9: a signature line can be read back: the hexadecimal value of its
    eight characters is the word (as a 32-bit value), so two words have the
    same line only if they are the same 32-bit value. *)
Theorem signature_line_read_back (w : N) :
  String.length (snprintf_9_08x w) = 8%nat /\
  unhex (list_ascii_of_string (snprintf_9_08x w)) = wrap32 w /\
  (forall w', snprintf_9_08x w = snprintf_9_08x w' -> wrap32 w = wrap32 w').
Proof.
  assert (Hback : forall x, unhex (list_ascii_of_string (snprintf_9_08x x)) = wrap32 x).
  { intros x. rewrite snprintf_9_08x_hex8. unfold hex8.
    rewrite <- fixed_hex_8, list_ascii_of_string_of_list_ascii, unhex_fixed_hex.
    reflexivity. }
  split; [| split].
  - rewrite snprintf_9_08x_hex8. apply length_hex8.
  - apply Hback.
  - intros w' Heq. rewrite <- (Hback w), <- (Hback w'). now rewrite Heq.
Qed.

(** X10: dumping the signature of a freshly loaded region gives the image
    back: after a successful load at a word-aligned address, the signature
    of the range of the whole words of the image has one line per word,
    the numeral of the image word. *)
Theorem load_then_signature {design} (cfg : config) (s : t design)
    (m : Memory.t) (content : list byte) (load_address : N) :
  Memory.size m * 4 < 2 ^ 64 ->
  load_address + N.of_nat (length content) < 2 ^ 64 ->
  load_address mod 4 = 0 ->
  Memory.load_binary m (Some content) load_address = (memory s, None) ->
  signature_opens cfg = true ->
  signature_begin cfg = load_address ->
  signature_end cfg = load_address + 4 * (N.of_nat (length content) / 4) ->
  exists lines,
    option_map signature_file (generate_signature cfg s) = Some (Some lines) /\
    N.of_nat (length lines) = N.of_nat (length content) / 4 /\
    forall k, (k < length lines)%nat ->
      exists w, image_word content k = Some w /\ lines !! k = Some (hex8 w).
Proof.
  intros Hcap Hfit Halign Hload Hopen Hb He.
  destruct (load_binary_success _ _ _ _ Hcap Hfit Hload) as [Hok Hm].
  pose proof (load_index_in_range m load_address _ Hok) as Hrange.
  set (len := N.of_nat (length content)) in *.
  pose proof (N.Div0.mul_div_le len 4) as Hdiv.
  assert (Hbytes : (4 * N.to_nat (len / 4) <= length content)%nat)
    by (subst len; lia).
  clearbody len. set (q := len / 4) in *.
  apply N.Div0.div_exact in Halign.
  eexists. unfold generate_signature. rewrite Hopen, Hb, He.
  rewrite (signature_lines_words _ (N.to_nat q)); [| lia | lia | lia].
  cbn [option_map signature_file]. split; [reflexivity |].
  rewrite length_map, length_seq. split; [lia |].
  intros k Hk.
  destruct (image_word_is_Some content k) as [w Hw]; [lia |].
  exists w. split; [exact Hw |].
  rewrite list_lookup_fmap, lookup_seq_lt by exact Hk.
  cbn [fmap option_fmap option_map Nat.add]. f_equal.
  rewrite snprintf_9_08x_hex8. f_equal.
  apply read_lookup.
  replace ((load_address + 4 * N.of_nat k) / 4) with (load_address / 4 + N.of_nat k).
  - rewrite Hm, load_words_lookup by assumption.
    case_decide; [| lia]. rewrite <- Hw. f_equal. lia.
  - apply (N.div_unique _ 4 _ 0); lia.
Qed.

Lemma load_then_signature_witness :
  exists lines,
    option_map signature_file
      (generate_signature (Config 10 0 true 4 12 true)
         (construct (Scripted.power_on []) None [0; 0x04030201; 0x08070605; 0]))
      = Some (Some lines) /\
    N.of_nat (length lines) = N.of_nat (length [x01; x02; x03; x04; x05; x06; x07; x08; x09]) / 4.
Proof.
  destruct (load_then_signature (Config 10 0 true 4 12 true)
              (construct (Scripted.power_on []) None [0; 0x04030201; 0x08070605; 0])
              (Memory.make 4) [x01; x02; x03; x04; x05; x06; x07; x08; x09] 4)
    as (lines & Hfile & Hlen & _).
  - vm_compute. reflexivity.
  - vm_compute. reflexivity.
  - reflexivity.
  - reflexivity.
  - reflexivity.
  - reflexivity.
  - reflexivity.
  - exists lines. split; assumption.
Defined.

(** ** The loop: how it ends, what it keeps *)

Section LoopInvariants.
Context {design : Type} {core : Verilated design}.
Implicit Types (cfg : config) (s : t design).

(** X11: the loop always ends, and in one of two ways only: after whole
    iterations, in a state where its guard is false (time budget reached
    or core finished), or inside an iteration whose halt check fired, in
    the state of that iteration with the halt message printed last. *)
Theorem loop_exit_reasons cfg s :
  max_sim_time cfg < 2 ^ 64 ->
  exists r,
    loop cfg s = Some r /\
    ((reaches cfg s r /\ loop_cond cfg r = false) \/
     (exists x,
        reaches cfg s x /\ loop_cond cfg x = true /\
        halt_met cfg (serviced x) = true /\
        r = print (HaltMet (halt_address cfg)) (serviced x))).
Proof.
  intros Hmax. revert s.
  apply (loop_induction cfg
           (fun s res =>
              exists r, res = Some r /\
                ((reaches cfg s r /\ loop_cond cfg r = false) \/
                 (exists x, reaches cfg s x /\ loop_cond cfg x = true /\
                    halt_met cfg (serviced x) = true /\
                    r = print (HaltMet (halt_address cfg)) (serviced x)))));
    [exact Hmax | | |].
  - intros s Hcond. exists s. split; [reflexivity | left].
    split; [apply reaches_here | exact Hcond].
  - intros s Hcond Hmet. exists (step cfg s). split; [reflexivity | right].
    exists s. repeat split; try assumption; [apply reaches_here |].
    now apply step_halted.
  - intros s Hcond Hmet (r & Hr & Hhow).
    assert (Hnext : forall x, reaches cfg (step cfg s) x -> reaches cfg s x).
    { intros x Hx. eapply reaches_next; [exact Hcond | | exact Hx].
      rewrite loop_body_eq, Hmet. reflexivity. }
    exists r. split; [exact Hr |].
    destruct Hhow as [[Hreach Hend] | (x & Hreach & Hrest)];
      [left | right; exists x]; auto.
Qed.

Lemma reaches_time cfg s x :
  max_sim_time cfg < 2 ^ 64 ->
  reaches cfg s x ->
  main_time s <= max_sim_time cfg ->
  main_time s <= main_time x <= max_sim_time cfg.
Proof.
  intros Hmax Hreach. induction Hreach as [s | s s' s'' Hcond Hbody _ IH].
  - lia.
  - intros _. destruct (loop_cond_true _ _ Hcond) as [Hlt _].
    rewrite loop_body_eq in Hbody. injection Hbody as _ <-.
    rewrite main_time_step, wrap64_small in IH by lia. lia.
Qed.

(** X12: simulated time only moves forward and never passes the budget:
    from a state within the budget, every state the loop comes to and the
    state it ends in have a time between the starting time and
    [max_sim_time]. *)
Theorem time_within_budget cfg s :
  max_sim_time cfg < 2 ^ 64 ->
  main_time s <= max_sim_time cfg ->
  (forall x, reaches cfg s x -> main_time s <= main_time x <= max_sim_time cfg) /\
  exists r, loop cfg s = Some r /\ main_time s <= main_time r <= max_sim_time cfg.
Proof.
  intros Hmax Hle. split.
  - intros x Hx. now apply reaches_time.
  - revert s Hle.
    apply (loop_induction cfg
             (fun s res =>
                main_time s <= max_sim_time cfg ->
                exists r, res = Some r /\
                          main_time s <= main_time r <= max_sim_time cfg));
      [exact Hmax | | |].
    + intros s _ Hle. exists s. split; [reflexivity | lia].
    + intros s Hcond _ _. destruct (loop_cond_true _ _ Hcond) as [Hlt _].
      exists (step cfg s). split; [reflexivity |].
      rewrite main_time_step, wrap64_small by lia. lia.
    + intros s Hcond _ IH _. destruct (loop_cond_true _ _ Hcond) as [Hlt _].
      rewrite main_time_step, wrap64_small in IH by lia.
      destruct IH as (r & Hr & Htime); [lia |].
      exists r. split; [exact Hr | lia].
Qed.

Lemma generate_signature_memory cfg s r :
  generate_signature cfg s = Some r -> memory r = memory s.
Proof.
  unfold generate_signature. destruct (signature_opens cfg).
  - destruct (signature_lines _ _ _ _); [| discriminate].
    intros [= <-]. reflexivity.
  - intros [= <-]. reflexivity.
Qed.

(** X13: the memory never changes size: the loop ends with as many words
    as it started with, whatever the core writes, and so does [run]. *)
Theorem memory_size_constant cfg s :
  max_sim_time cfg < 2 ^ 64 ->
  (exists r, loop cfg s = Some r /\
             Memory.size (memory r) = Memory.size (memory s)) /\
  (forall r, run cfg s = Some r ->
             Memory.size (memory r) = Memory.size (memory s)).
Proof.
  intros Hmax.
  assert (Hloop : forall s, exists r, loop cfg s = Some r /\
                    Memory.size (memory r) = Memory.size (memory s)).
  { apply (loop_induction cfg
             (fun s res => exists r, res = Some r /\
                             Memory.size (memory r) = Memory.size (memory s)));
      [exact Hmax | | |].
    - intros x _. exists x. auto.
    - intros x _ _. exists (step cfg x). split; [reflexivity | apply size_memory_step].
    - intros x _ _ (r & Hr & Hsize). exists r. split; [exact Hr |].
      rewrite Hsize. apply size_memory_step. }
  split; [apply Hloop |].
  intros r. unfold run.
  destruct (Hloop (start s)) as (r' & -> & Hsize).
  change (memory (start s)) with (memory s) in Hsize.
  destruct (dump_signature cfg).
  - intros Hsig. now rewrite (generate_signature_memory _ _ _ Hsig).
  - now intros [= <-].
Qed.

(** *** Clock and reset *)

Lemma clock_drive s : clock (drive s) = negb (clock (top s)).
Proof. unfold drive. split_body; reflexivity. Qed.

Lemma reset_drive s :
  reset (drive s) =
    if RESET_CYCLES <? wrap64 (main_time s + 1) then false else reset (top s).
Proof. unfold drive. split_body; reflexivity. Qed.

(** X14: for a core whose [eval] leaves the clock and reset inputs as
    driven, the harness started at time 0 evaluates the core in step [t]
    with the clock high exactly when [t] is odd and with reset asserted
    exactly when [t <= RESET_CYCLES]. *)
Theorem clock_and_reset_schedule cfg s0 x :
  (forall v : VTop design, clock (eval v) = clock v) ->
  (forall v : VTop design, reset (eval v) = reset v) ->
  max_sim_time cfg < 2 ^ 64 ->
  main_time s0 = 0 ->
  reaches cfg (start s0) x ->
  loop_cond cfg x = true ->
  clock (drive x) = N.odd (main_time x + 1) /\
  reset (drive x) = (main_time x + 1 <=? RESET_CYCLES).
Proof.
  intros Hclock Hreset Hmax Hzero Hreach Hcond.
  assert (Hinv : clock (top x) = N.odd (main_time x) /\
                 reset (top x) = (main_time x <=? RESET_CYCLES)).
  { assert (Hstart : clock (top (start s0)) = N.odd (main_time (start s0)) /\
                     reset (top (start s0)) = (main_time (start s0) <=? RESET_CYCLES)).
    { unfold start. cbn [top main_time]. rewrite Hclock, Hreset, Hzero.
      split; reflexivity. }
    clear Hcond Hzero. revert Hstart.
    induction Hreach as [s | s s' s'' Hc Hbody _ IH]; [tauto |].
    intros [Hck Hrs]. apply IH.
    destruct (loop_cond_true _ _ Hc) as [Hlt _].
    rewrite loop_body_eq in Hbody. injection Hbody as _ <-.
    rewrite top_step, main_time_step, Hclock, Hreset, clock_drive, reset_drive.
    rewrite wrap64_small by lia. split.
    - rewrite Hck, N.add_1_r, N.odd_succ. apply N.negb_odd.
    - rewrite Hrs. unfold RESET_CYCLES.
      destruct (N.ltb_spec 2 (main_time s + 1)), (N.leb_spec (main_time s + 1) 2),
        (N.leb_spec (main_time s) 2); try reflexivity; lia. }
  destruct Hinv as [Hck Hrs]. destruct (loop_cond_true _ _ Hcond) as [Hlt _].
  rewrite clock_drive, reset_drive, wrap64_small by lia. split.
  - rewrite Hck, N.add_1_r, N.odd_succ. apply N.negb_odd.
  - rewrite Hrs. unfold RESET_CYCLES.
    destruct (N.ltb_spec 2 (main_time x + 1)), (N.leb_spec (main_time x + 1) 2),
      (N.leb_spec (main_time x) 2); try reflexivity; lia.
Qed.

(** *** The dump file *)

Lemma vcd_tracer_step cfg s f :
  vcd_tracer s = Some f ->
  vcd_tracer (step cfg s) = Some (f ++ [(wrap64 (main_time s + 1), eval (drive s))]).
Proof.
  intros Hf. open_body. split_body; rewrite Hf; reflexivity.
Qed.

Lemma loop_dumps cfg :
  max_sim_time cfg < 2 ^ 64 ->
  forall s f,
    vcd_tracer s = Some f ->
    exists r l,
      loop cfg s = Some r /\
      vcd_tracer r = Some (f ++ l) /\
      main_time s <= main_time r /\
      map fst l = map (fun k => main_time s + 1 + N.of_nat k)
                      (seq 0 (N.to_nat (main_time r - main_time s))).
Proof.
  intros Hmax.
  apply (loop_induction cfg
           (fun s res =>
              forall f, vcd_tracer s = Some f ->
              exists r l, res = Some r /\ vcd_tracer r = Some (f ++ l) /\
                main_time s <= main_time r /\
                map fst l = map (fun k => main_time s + 1 + N.of_nat k)
                                (seq 0 (N.to_nat (main_time r - main_time s)))));
    [exact Hmax | | |].
  - intros s _ f Hf. exists s, []. rewrite app_nil_r, N.sub_diag.
    repeat split; [exact Hf | lia].
  - intros s Hcond _ f Hf. destruct (loop_cond_true _ _ Hcond) as [Hlt _].
    exists (step cfg s), [(wrap64 (main_time s + 1), eval (drive s))].
    split; [reflexivity |]. split; [now apply vcd_tracer_step |].
    rewrite main_time_step, wrap64_small by lia. split; [lia |].
    replace (main_time s + 1 - main_time s) with 1 by lia.
    change (N.to_nat 1) with 1%nat. cbn [seq map fst]. f_equal. lia.
  - intros s Hcond _ IH f Hf. destruct (loop_cond_true _ _ Hcond) as [Hlt _].
    destruct (IH _ (vcd_tracer_step cfg s f Hf)) as (r & l & Hr & Htr & Hle & Hl).
    rewrite main_time_step, wrap64_small in Hle, Hl by lia.
    rewrite wrap64_small in Htr by lia.
    exists r, ((main_time s + 1, eval (drive s)) :: l).
    split; [exact Hr |]. split; [now rewrite Htr, <- app_assoc |].
    split; [lia |].
    replace (N.to_nat (main_time r - main_time s))
      with (S (N.to_nat (main_time r - (main_time s + 1)))) by lia.
    cbn [map seq fst]. f_equal; [lia |].
    rewrite Hl, <- seq_shift, map_map. apply map_ext. intros k. lia.
Qed.

(** X15: with an enabled tracer, a simulator started at time 0 leaves a
    dump file with exactly one snapshot per time from 0 to the time the
    loop ends at, in order: the statements before the loop dump time 0 and
    every iteration, the halting one included, dumps its time. *)
Theorem dump_every_step cfg s :
  max_sim_time cfg < 2 ^ 64 ->
  main_time s = 0 ->
  vcd_tracer s = VCDTracer.enable VCDTracer.make ->
  exists r f,
    loop cfg (start s) = Some r /\
    vcd_tracer r = Some f /\
    map fst f = map N.of_nat (seq 0 (S (N.to_nat (main_time r)))).
Proof.
  intros Hmax Hzero Htr.
  destruct (loop_dumps cfg Hmax (start s) [(0, top (start s))])
    as (r & l & Hr & Hf & Hle & Hl).
  { unfold start. cbn [vcd_tracer main_time top]. rewrite Htr, Hzero. reflexivity. }
  change (main_time (start s)) with (main_time s) in Hle, Hl.
  rewrite Hzero, N.sub_0_r in Hl.
  exists r, ((0, top (start s)) :: l). split; [exact Hr |]. split; [exact Hf |].
  cbn [map seq fst]. f_equal.
  rewrite Hl, <- seq_shift, map_map. apply map_ext. intros k. lia.
Qed.

Lemma generate_signature_returns cfg s :
  signature_end cfg + 4 <= 2 ^ 64 -> is_Some (generate_signature cfg s).
Proof.
  intros Hmax. unfold generate_signature.
  destruct (signature_opens cfg); [| eauto].
  set (b := signature_begin cfg) in *. set (e := signature_end cfg) in *.
  pose proof (N.Div0.mul_div_le (e - b + 3) 4) as Hlow.
  pose proof (N.mul_succ_div_gt (e - b + 3) 4) as Hup.
  set (q := (e - b + 3) / 4) in *.
  rewrite (signature_lines_count _ (N.to_nat q)); [eauto | exact Hmax | lia | | lia].
  destruct (N.to_nat q) eqn:Hq; [now left | right]. lia.
Qed.

(** X16: [run] returns: for every 64-bit time budget, and every signature
    end of at most 2^64 - 4 when a signature is asked for, the loop and
    the signature dump both terminate. *)
Theorem run_returns cfg s :
  max_sim_time cfg < 2 ^ 64 ->
  (dump_signature cfg = true -> signature_end cfg + 4 <= 2 ^ 64) ->
  is_Some (run cfg s).
Proof.
  intros Hmax Hsig. unfold run.
  destruct (loop_total cfg (start s) Hmax) as [r ->].
  destruct (dump_signature cfg); [| eauto].
  apply generate_signature_returns. now apply Hsig.
Qed.

End LoopInvariants.

Lemma loop_exit_reasons_witness :
  let cfg := Config 100 8 false 0 0 false in
  let s :=
    start (construct
             (Scripted.power_on
                [Scripted.idle; Scripted.idle; Scripted.store 8 0xBABECAFE])
             None (Memory.make 4)) in
  exists r,
    loop cfg s = Some r /\
    ((reaches cfg s r /\ loop_cond cfg r = false) \/
     (exists x,
        reaches cfg s x /\ loop_cond cfg x = true /\
        halt_met cfg (serviced x) = true /\
        r = print (HaltMet (halt_address cfg)) (serviced x))).
Proof.
  cbv zeta. apply loop_exit_reasons. vm_compute. reflexivity.
Defined.

Lemma time_within_budget_witness :
  let cfg := Config 100 8 false 0 0 false in
  let s :=
    start (construct
             (Scripted.power_on
                [Scripted.idle; Scripted.idle; Scripted.store 8 0xBABECAFE])
             None (Memory.make 4)) in
  exists r, loop cfg s = Some r /\ main_time s <= main_time r <= max_sim_time cfg.
Proof.
  cbv zeta. apply time_within_budget.
  - vm_compute. reflexivity.
  - vm_compute. discriminate.
Defined.

Lemma memory_size_constant_witness :
  let cfg := Config 3 0 false 0 0 false in
  let s :=
    construct (Scripted.power_on [Scripted.idle; Scripted.store 0x1003 5])
      None (Memory.make 4) in
  exists r, loop cfg s = Some r /\ Memory.size (memory r) = Memory.size (memory s).
Proof.
  cbv zeta. apply memory_size_constant. vm_compute. reflexivity.
Defined.

Lemma clock_and_reset_schedule_witness :
  let cfg := Config 100 0 false 0 0 false in
  let s0 := construct (Scripted.power_on [Scripted.idle]) None (Memory.make 4) in
  let x := step cfg (step cfg (start s0)) in
  clock (drive x) = N.odd (main_time x + 1) /\
  reset (drive x) = (main_time x + 1 <=? RESET_CYCLES).
Proof.
  cbv zeta.
  apply (clock_and_reset_schedule (Config 100 0 false 0 0 false)
           (construct (Scripted.power_on [Scripted.idle]) None (Memory.make 4))).
  - intros v. unfold eval, Scripted.core, Scripted.play.
    destruct (internal v); reflexivity.
  - intros v. unfold eval, Scripted.core, Scripted.play.
    destruct (internal v); reflexivity.
  - vm_compute. reflexivity.
  - reflexivity.
  - apply (reaches_next _ _
             (step (Config 100 0 false 0 0 false)
                (start (construct (Scripted.power_on [Scripted.idle]) None
                          (Memory.make 4)))));
      [vm_compute; reflexivity | vm_compute; reflexivity |].
    apply (reaches_next _ _
             (step (Config 100 0 false 0 0 false)
                (step (Config 100 0 false 0 0 false)
                   (start (construct (Scripted.power_on [Scripted.idle]) None
                             (Memory.make 4))))));
      [vm_compute; reflexivity | vm_compute; reflexivity | apply reaches_here].
  - vm_compute. reflexivity.
Defined.

Lemma dump_every_step_witness :
  let cfg := Config 100 8 false 0 0 false in
  let s :=
    construct
      (Scripted.power_on [Scripted.idle; Scripted.idle; Scripted.store 8 0xBABECAFE])
      (VCDTracer.enable VCDTracer.make) (Memory.make 4) in
  exists r f,
    loop cfg (start s) = Some r /\
    vcd_tracer r = Some f /\
    map fst f = map N.of_nat (seq 0 (S (N.to_nat (main_time r)))).
Proof.
  cbv zeta. apply dump_every_step.
  - vm_compute. reflexivity.
  - reflexivity.
  - reflexivity.
Defined.

Lemma run_returns_witness :
  is_Some (run (Config 20 0 true 4 12 true)
             (construct (Scripted.power_on [Scripted.idle; Scripted.store 4 7])
                None (Memory.make 4))).
Proof.
  apply run_returns.
  - vm_compute. reflexivity.
  - intros _. vm_compute. discriminate.
Defined.

(** ** Command line, constructor and [main] *)

Section CommandLine.
Context {host : Program.Host} {design : Type} {core : Verilated design}.
Implicit Types (st : Program.settings design) (args : list string).

(** The equation of the loop of [parse_args] at an argument that has a
    successor. *)
Lemma parse_args_unfold a v rest1 st :
  Program.parse_args (a :: v :: rest1) st =
    if String.eqb a "-halt" then
      Program.number (Program.parse_number v)
        (fun n => Program.parse_args rest1 (Program.set_halt_address n st))
    else if String.eqb a "-memory" then
      Program.number (Program.stoull v)
        (fun n => Program.parse_args rest1 (Program.set_memory_words n st))
    else if String.eqb a "-time" then
      Program.number (Program.stoull v)
        (fun n => Program.parse_args rest1 (Program.set_max_sim_time n st))
    else if String.eqb a "-vcd" then
      if Program.trace_opens v
      then Program.parse_args rest1
             (Program.set_vcd_tracer (VCDTracer.enable (Program.vcd_tracer st)) st)
      else Program.Throw (Program.TraceNotOpen v)
    else if String.eqb a "-signature" then
      match rest1 with
      | e :: f :: rest3 =>
          Program.number (Program.parse_number v) (fun b =>
          Program.number (Program.parse_number e) (fun e' =>
          Program.parse_args rest3 (Program.set_signature b e' f st)))
      | _ => Program.parse_args (v :: rest1) st
      end
    else if String.eqb a "-instruction" then
      Program.parse_args rest1 (Program.set_instruction_filename v st)
    else Program.parse_args (v :: rest1) st.
Proof. reflexivity. Qed.

Lemma parse_args_skip a rest st :
  Program.is_flag a = false ->
  Program.parse_args (a :: rest) st = Program.parse_args rest st.
Proof.
  unfold Program.is_flag. intros H.
  repeat (apply orb_false_elim in H; destruct H as [H ?]).
  destruct rest as [| v rest1]; [reflexivity |]. rewrite parse_args_unfold.
  repeat match goal with Heq : String.eqb _ _ = false |- _ => rewrite Heq; clear Heq end.
  reflexivity.
Qed.

(** X17: arguments that are none of the six flags are passed over
    wherever a flag is looked for: a command line that starts with such
    arguments (the program name, say) is parsed like the rest of it, and
    one made of such arguments only leaves the settings as they were. *)
Theorem parse_args_skips_non_flags (junk args : list string) st :
  Forall (fun a => Program.is_flag a = false) junk ->
  Program.parse_args (junk ++ args) st = Program.parse_args args st /\
  Program.parse_args junk st = Program.Ok st.
Proof.
  intros Hjunk. induction Hjunk as [| a junk Ha _ [IH1 IH2]].
  - split; reflexivity.
  - split.
    + cbn [app]. now rewrite parse_args_skip.
    + now rewrite parse_args_skip.
Qed.

Lemma parse_number_32bit str n : Program.parse_number str = Some n -> n < 2 ^ 32.
Proof.
  unfold Program.parse_number.
  destruct (_ && _); [destruct (Program.stoul 16 _) | destruct (Program.stoul 10 _)];
    try discriminate; intros [= <-]; apply N.mod_upper_bound; discriminate.
Qed.

Lemma parse_args_parsed_well (Q : N -> Prop) :
  (forall str n, Program.stoull str = Some n -> Q n) ->
  forall fuel args st st',
    (length args <= fuel)%nat ->
    parsed_well Q st ->
    Program.parse_args args st = Program.Ok st' ->
    parsed_well Q st'.
Proof.
  intros Hstoull.
  induction fuel as [| fuel IH]; intros args st st' Hlen Hwell Hparse.
  - destruct args; [| simpl in Hlen; lia]. now injection Hparse as <-.
  - destruct args as [| a [| v rest1]]; [now injection Hparse as <- .. |].
    rewrite parse_args_unfold in Hparse. simpl in Hlen.
    destruct Hwell as (Hhalt & Hsig & Htime).
    destruct (String.eqb a "-halt").
    { destruct (Program.parse_number v) as [n |] eqn:Hn; [| discriminate].
      eapply IH; [| | exact Hparse]; [lia |].
      exact (conj (parse_number_32bit _ _ Hn) (conj Hsig Htime)). }
    destruct (String.eqb a "-memory").
    { destruct (Program.stoull v) as [n |]; [| discriminate].
      eapply IH; [| | exact Hparse]; [lia |]. exact (conj Hhalt (conj Hsig Htime)). }
    destruct (String.eqb a "-time").
    { destruct (Program.stoull v) as [n |] eqn:Hn; [| discriminate].
      eapply IH; [| | exact Hparse]; [lia |].
      exact (conj Hhalt (conj Hsig (Hstoull _ _ Hn))). }
    destruct (String.eqb a "-vcd").
    { destruct (Program.trace_opens v); [| discriminate].
      eapply IH; [| | exact Hparse]; [lia |]. exact (conj Hhalt (conj Hsig Htime)). }
    destruct (String.eqb a "-signature").
    { destruct rest1 as [| e [| f rest3]];
        try (eapply IH; [| | exact Hparse];
             [cbn [length] in *; lia | exact (conj Hhalt (conj Hsig Htime))]).
      destruct (Program.parse_number v) as [b |] eqn:Hb; [| discriminate].
      destruct (Program.parse_number e) as [e' |] eqn:He; [| discriminate].
      cbn [Program.number] in Hparse.
      eapply IH; [| | exact Hparse]; [cbn [length] in *; lia |].
      split; [exact Hhalt |]. split; [| exact Htime].
      intros _. split; [exact (parse_number_32bit _ _ Hb) | exact (parse_number_32bit _ _ He)]. }
    destruct (String.eqb a "-instruction").
    { eapply IH; [| | exact Hparse]; [lia |]. exact (conj Hhalt (conj Hsig Htime)). }
    eapply IH; [| | exact Hparse]; [cbn [length] in *; lia |].
    exact (conj Hhalt (conj Hsig Htime)).
Qed.

(** X18: whatever the uninitialized [signature_begin] and [signature_end]
    hold, settings that [parse_args] returns have a 32-bit halt address
    and, when a signature is to be dumped, 32-bit signature bounds, both
    parsed from the command line. *)
Theorem parse_args_signature_bounds (tracer : VCDTracer.t design)
    (begin0 end0 : N) args st :
  Program.parse_args args (Program.initial tracer begin0 end0) = Program.Ok st ->
  Program.halt_address st < 2 ^ 32 /\
  (Program.dump_signature st = true ->
     Program.signature_begin st < 2 ^ 32 /\ Program.signature_end st < 2 ^ 32).
Proof.
  intros Hparse.
  destruct (parse_args_parsed_well (fun _ => True) (fun _ _ _ => I)
              (length args) args (Program.initial tracer begin0 end0) st
              (Nat.le_refl _)) as (Hhalt & Hsig & _);
    [| exact Hparse | split; assumption].
  split; [reflexivity | split; [discriminate | exact I]].
Qed.


(** X20: the simulator the constructor builds starts at time 0 with
    [memory_words] words that are all 0, except that with an instruction
    file the whole words of the image sit from word 1024 (byte address
    0x1000) on.  Sizes fit in 64 bits. *)
Theorem constructed_memory (top0 : VTop design) (begin0 end0 : N) args st cfg s :
  Program.memory_words st * 4 < 2 ^ 64 ->
  (forall content,
     Program.ifstream (Program.instruction_filename st) = Some content ->
     0x1000 + N.of_nat (length content) < 2 ^ 64) ->
  Program.parse_args args (Program.initial VCDTracer.make begin0 end0)
    = Program.Ok st ->
  Program.Simulator top0 begin0 end0 args = Program.Ok (cfg, s) ->
  main_time s = 0 /\
  Memory.size (memory s) = Program.memory_words st /\
  (Program.instruction_filename st = ""%string ->
     forall j, (j < length (memory s))%nat -> memory s !! j = Some 0) /\
  (Program.instruction_filename st <> ""%string ->
     exists content,
       Program.ifstream (Program.instruction_filename st) = Some content /\
       forall j, (j < length (memory s))%nat ->
         memory s !! j =
           if decide (1024 <= j < 1024 + length content / 4)%nat
           then image_word content (j - 1024)
           else Some 0).
Proof.
  intros Hcap Hfile Hparse Hnew. unfold Program.Simulator in Hnew.
  rewrite Hparse in Hnew.
  destruct (Program.allocates _); [| discriminate].
  destruct (fresh_memory_reads_zero (Program.memory_words st) 0) as [Hsize _].
  assert (Hzero : forall j, (j < N.to_nat (Program.memory_words st))%nat ->
                    Memory.make (Program.memory_words st) !! j = Some 0).
  { intros j Hj. unfold Memory.make. now apply lookup_replicate_2. }
  assert (Hlen : length (Memory.make (Program.memory_words st))
                 = N.to_nat (Program.memory_words st)).
  { unfold Memory.make. apply length_replicate. }
  destruct (String.eqb_spec (Program.instruction_filename st) "") as [Hname | Hname].
  - injection Hnew as _ <-. cbn [main_time memory construct].
    split; [reflexivity |]. split; [exact Hsize |]. split; [| contradiction].
    intros _ j Hj. apply Hzero. now rewrite <- Hlen.
  - destruct (Program.ifstream (Program.instruction_filename st)) as [content |];
      [| discriminate].
    specialize (Hfile content eq_refl).
    destruct (Memory.load_binary _ _ _) as [m' [err |]] eqn:Hload; [discriminate |].
    injection Hnew as _ <-. cbn [main_time memory construct].
    rewrite <- Hsize in Hcap.
    destruct (load_binary_success _ _ _ _ Hcap Hfile Hload) as [Hok ->].
    pose proof (load_index_in_range _ 4096 _ Hok) as Hrange.
    pose proof (N.Div0.mul_div_le (N.of_nat (length content)) 4) as Hdiv.
    assert (Hq : N.to_nat (N.of_nat (length content) / 4) = (length content / 4)%nat).
    { change 4 with (N.of_nat 4). rewrite <- Nat2N.inj_div. apply Nat2N.id. }
    split; [reflexivity |]. split.
    { unfold Memory.size in *. now rewrite length_load_words. }
    split; [contradiction |]. intros _. exists content. split; [reflexivity |].
    intros j Hj. rewrite length_load_words in Hj.
    rewrite load_words_lookup by lia.
    change (N.to_nat (0 + 4096 / 4)) with 1024%nat. rewrite Hq.
    repeat case_decide; try lia; [reflexivity |].
    apply Hzero. now rewrite <- Hlen.
Qed.

End CommandLine.

Section SmallMemory.
Context {host : Program.Host} {design : Type} {core : Verilated design}.

(** X21: an image is loaded at byte 0x1000, so a memory of fewer than 1024
    words holds none: when the instruction file opens, whatever it
    contains (nothing, even), the constructor fails with the too-large
    error. *)
Theorem image_needs_1024_words (top0 : VTop design) (begin0 end0 : N)
    (args : list string) (st : Program.settings design) (content : list byte) :
  Program.parse_args args (Program.initial VCDTracer.make begin0 end0)
    = Program.Ok st ->
  Program.memory_words st < 1024 ->
  Program.allocates (Program.memory_words st) = true ->
  Program.instruction_filename st <> ""%string ->
  Program.ifstream (Program.instruction_filename st) = Some content ->
  0x1000 + N.of_nat (length content) < 2 ^ 64 ->
  Program.Simulator top0 begin0 end0 args
    = Program.Throw (Program.LoadFailed TooLarge).
Proof.
  intros Hparse Hsmall Halloc Hname Hfile Hfit.
  unfold Program.Simulator. rewrite Hparse, Halloc.
  destruct (String.eqb_spec (Program.instruction_filename st) ""); [contradiction |].
  rewrite Hfile. unfold Memory.load_binary.
  destruct (fresh_memory_reads_zero (Program.memory_words st) 0) as [-> _].
  change (2 ^ 64) with 18446744073709551616 in Hfit.
  rewrite (wrap64_small (N.of_nat (length content))),
    (wrap64_small (Program.memory_words st * 4)),
    (wrap64_small (4096 + N.of_nat (length content)))
    by (change (2 ^ 64) with 18446744073709551616; lia).
  destruct (N.ltb_spec (Program.memory_words st * 4) (4096 + N.of_nat (length content)));
    [reflexivity | lia].
Qed.

End SmallMemory.

(** ** The program on the example host *)

Lemma example_stoull_64bit str n : Program.stoull str = Some n -> n < 2 ^ 64.
Proof.
  cbn [Program.stoull ExampleHost.host]. unfold ExampleHost.parse.
  destruct str; [discriminate |].
  destruct (ExampleHost.numeral 10 0 _) as [v |]; [| discriminate].
  destruct (N.ltb_spec v (2 ^ 64)); [| discriminate].
  now intros [= <-].
Qed.

(** An image, a halt address, a budget and a signature: the program halts
    nowhere (the scripted core is idle) and exits with 0 at time 20. *)
Example main_runs :
  option_map
    (fun out =>
       (out.1, match out.2 with
               | Program.Ok r => Some (main_time r, signature_file r)
               | Program.Throw _ => None
               end))
    (Program.main (Scripted.power_on []) 7 9
       ["sim"; "-memory"; "2048"; "-instruction"; "prog.bin"; "-time"; "20";
        "-halt"; "0x1100"; "-signature"; "0x1000"; "0x100c"; "sig.txt"]%string)
  = Some (0, Some (20, Some ["02a00513"; "0000006f"; "00000000"]%string)).
Proof. vm_compute. reflexivity. Qed.

Example main_missing_image :
  Program.main (Scripted.power_on []) 7 9
    ["sim"; "-memory"; "2048"; "-instruction"; "none.bin"]%string
  = Some (1, Program.Throw (Program.LoadFailed CouldNotOpen)).
Proof. vm_compute. reflexivity. Qed.

Example main_bad_number :
  Program.main (Scripted.power_on []) 7 9 ["sim"; "-time"; "soon"]%string
  = Some (1, Program.Throw Program.BadNumber).
Proof. vm_compute. reflexivity. Qed.

(** [-signature] with fewer than three values is passed over, and what
    follows it is read as flags. *)
Example parse_args_short_signature :
  Program.parse_args ["sim"; "-signature"; "-time"; "5"]%string
    (Program.initial (design := Scripted.script) VCDTracer.make 7 9)
  = Program.Ok (Program.set_max_sim_time 5 (Program.initial VCDTracer.make 7 9)).
Proof. vm_compute. reflexivity. Qed.

(** The value of a flag is not looked at as a flag. *)
Example parse_args_value_is_not_flag :
  Program.parse_args ["-instruction"; "-time"; "5"]%string
    (Program.initial (design := Scripted.script) VCDTracer.make 7 9)
  = Program.Ok (Program.set_instruction_filename "-time"
                  (Program.initial VCDTracer.make 7 9)).
Proof. vm_compute. reflexivity. Qed.

Lemma parse_args_skips_non_flags_witness :
  Program.parse_args (["sim"%string; "+verbose"%string] ++ ["-time"%string; "50"%string])
    (Program.initial (design := Scripted.script) VCDTracer.make 7 9)
  = Program.parse_args ["-time"; "50"]%string (Program.initial VCDTracer.make 7 9).
Proof.
  refine (proj1 (parse_args_skips_non_flags ["sim"; "+verbose"]%string
                   ["-time"; "50"]%string (Program.initial VCDTracer.make 7 9) _)).
  apply List.Forall_cons; [reflexivity |].
  apply List.Forall_cons; [reflexivity | apply List.Forall_nil].
Defined.

Lemma parse_args_signature_bounds_witness :
  exists st : Program.settings Scripted.script,
    Program.parse_args
      ["sim"; "-halt"; "0x10"; "-signature"; "0x2000"; "0x2010"; "sig.txt"]%string
      (Program.initial VCDTracer.make (2 ^ 40) (2 ^ 50)) = Program.Ok st /\
    Program.halt_address st < 2 ^ 32 /\
    (Program.dump_signature st = true ->
       Program.signature_begin st < 2 ^ 32 /\ Program.signature_end st < 2 ^ 32).
Proof.
  eexists. split.
  - vm_compute. reflexivity.
  - apply (parse_args_signature_bounds VCDTracer.make (2 ^ 40) (2 ^ 50)
             ["sim"; "-halt"; "0x10"; "-signature"; "0x2000"; "0x2010"; "sig.txt"]%string).
    vm_compute. reflexivity.
Defined.


Lemma constructed_memory_witness :
  let st : Program.settings Scripted.script :=
    Program.set_instruction_filename "prog.bin"
      (Program.set_memory_words 2048 (Program.initial VCDTracer.make 7 9)) in
  let s :=
    construct (Scripted.power_on []) None
      (Memory.load_binary (Memory.make 2048) (Program.ifstream "prog.bin") 0x1000).1 in
  main_time s = 0 /\ Memory.size (memory s) = Program.memory_words st.
Proof.
  cbv zeta.
  destruct (constructed_memory (Scripted.power_on []) 7 9
              ["sim"; "-memory"; "2048"; "-instruction"; "prog.bin"]%string
              (Program.set_instruction_filename "prog.bin"
                 (Program.set_memory_words 2048 (Program.initial VCDTracer.make 7 9)))
              (Program.config_of
                 (Program.set_instruction_filename "prog.bin"
                    (Program.set_memory_words 2048
                       (Program.initial (design := Scripted.script)
                          VCDTracer.make 7 9))))
              (construct (Scripted.power_on []) None
                 (Memory.load_binary (Memory.make 2048)
                    (Program.ifstream "prog.bin") 0x1000).1))
    as (Htime & Hsize & _).
  - vm_compute. reflexivity.
  - intros content [= <-]. vm_compute. reflexivity.
  - vm_compute. reflexivity.
  - vm_compute. reflexivity.
  - split; assumption.
Defined.

Lemma image_needs_1024_words_witness :
  Program.Simulator (Scripted.power_on []) 7 9
    ["sim"; "-memory"; "1000"; "-instruction"; "prog.bin"]%string
  = Program.Throw (Program.LoadFailed TooLarge).
Proof.
  eapply (image_needs_1024_words (Scripted.power_on []) 7 9
            ["sim"; "-memory"; "1000"; "-instruction"; "prog.bin"]%string).
  - vm_compute. reflexivity.
  - vm_compute. reflexivity.
  - vm_compute. reflexivity.
  - discriminate.
  - vm_compute. reflexivity.
  - vm_compute. reflexivity.
Defined.
